(** * img_proof.ipa_oci : the OCI cloud backend of img-proof

    A shallow embedding of [OCICloud] (src/img_proof/ipa_oci.py).

    The class is a synchronous request/poll wrapper around the provider's
    SDK.  The SDK and the cloud behind it are external: they are modelled as
    a [Provider], a function that answers a request given the requests
    issued before it.  Every method of the class becomes a computation in a
    state-and-exception monad whose state is the Python object [self]
    together with the chronological log of the requests issued so far.

    Python is dynamically typed and several call sites of the class pass a
    value of another kind than the callee dereferences.  Values are therefore
    modelled by one universe [PyVal], with attribute access that raises
    [AttributeError] exactly where Python's does. *)

From Stdlib Require Import String Ascii List Bool Arith NArith Lia.
From Stdlib Require DecimalString.
Import ListNotations.
Open Scope string_scope.
Set Warnings "-register-all".

(** ** Values *)

(** The operations of the SDK (and of the framework helpers outside the
    class) that the class calls. *)
Inductive ApiOp : Type :=
  (* oci.core.VirtualNetworkClient *)
  | create_vcn | get_vcn | delete_vcn
  | create_subnet | get_subnet | delete_subnet
  | create_internet_gateway | get_internet_gateway
  | delete_internet_gateway | list_internet_gateways
  | get_route_table | update_route_table
  | get_vnic
  (* oci.core.ComputeClient *)
  | get_instance | launch_instance | terminate_instance
  | list_vnic_attachments
  (* the call of the method read on the object returned by get_instance *)
  | instance_action
  (* oci.config, client constructors *)
  | config_from_file | ComputeClient | VirtualNetworkClient
  (* img_proof.ipa_utils / IpaCloud helpers *)
  | generate_instance_name | _get_user_data.

(** Python values.  [VModel cls attrs] is an instance of an SDK model class
    of oci.core.models with its attributes; [VResponse req data] is the
    response object an SDK client call returns: the model is its [.data]. *)
Inductive PyVal : Type :=
  | VNone
  | VStr (s : string)
  | VBytes (s : string)
  | VBool (b : bool)
  | VInt (n : nat)
  | VList (l : list PyVal)
  | VDict (items : list (string * PyVal))
  | VModel (cls : string) (attrs : list (string * PyVal))
  | VResponse (request : Request) (data : PyVal)
with Request : Type :=
  | Req (op : ApiOp) (args : list PyVal) (kwargs : list (string * PyVal)).

Definition req_op (r : Request) : ApiOp :=
  match r with Req o _ _ => o end.

Definition req_args (r : Request) : list PyVal :=
  match r with Req _ a _ => a end.

Definition req_kwargs (r : Request) : list (string * PyVal) :=
  match r with Req _ _ k => k end.

(** The exceptions that occur ([Exception] subclasses only). *)
Inductive Exn : Type :=
  | OCICloudException (msg : string)
  | IpaCloudException (msg : string)
  | AttributeError (attr : string)
  | TypeError
  | KeyError (key : string)
  | ServiceError (status : nat)
  | MaximumWaitTimeExceeded
  | OtherException (name : string).

(** What the provider does with a request. *)
Inductive Outcome : Type :=
  | Returns (v : PyVal)
  | Raises (e : Exn).

(** The provider: the answer to a request, given the requests before it. *)
Definition Provider : Type := list Request -> Request -> Outcome.

(** Python truthiness ([if x], [not x], [x or y]). *)
Definition truthy (v : PyVal) : bool :=
  match v with
  | VNone => false
  | VStr s => negb (String.eqb s "")
  | VBytes s => negb (String.eqb s "")
  | VBool b => b
  | VInt n => negb (Nat.eqb n 0)
  | VList l => match l with [] => false | _ => true end
  | VDict d => match d with [] => false | _ => true end
  | VModel _ _ => true
  | VResponse _ _ => true
  end.

(** [a or b]. *)
Definition py_or (a b : PyVal) : PyVal :=
  if truthy a then a else b.

(** [v == 'literal']: only a string equals a string. *)
Definition py_eq_str (v : PyVal) (s : string) : bool :=
  match v with
  | VStr t => String.eqb t s
  | _ => false
  end.

Fixpoint assoc (k : string) (l : list (string * PyVal)) : option PyVal :=
  match l with
  | [] => None
  | (k', v) :: l' => if String.eqb k k' then Some v else assoc k l'
  end.

Fixpoint chars (s : string) : list PyVal :=
  match s with
  | EmptyString => []
  | String c s' => VStr (String c EmptyString) :: chars s'
  end.

(** [str(v)] as used by [str.format]; exact on strings and [None], the
    values an instance id takes. *)
Definition py_str (v : PyVal) : string :=
  match v with
  | VNone => "None"
  | VStr s => s
  | VBytes s => "b'" ++ s ++ "'"
  | VBool true => "True"
  | VBool false => "False"
  | VInt n => DecimalString.NilEmpty.string_of_uint (Nat.to_uint n)
  | VList _ => "<list>"
  | VDict _ => "<dict>"
  | VModel cls _ => "<" ++ cls ++ ">"
  | VResponse _ _ => "<oci.response.Response>"
  end.

(** [str.lower] on ASCII. *)
Definition lower_ascii (c : ascii) : ascii :=
  let n := N_of_ascii c in
  if (N.leb 65 n && N.leb n 90)%bool then ascii_of_N (n + 32) else c.

Fixpoint lower (s : string) : string :=
  match s with
  | EmptyString => EmptyString
  | String c s' => String (lower_ascii c) (lower s')
  end.

(** [base64.b64encode] on a byte string. *)
Definition b64_alphabet : list ascii :=
  list_ascii_of_string
    "ABCDEFGHIJKLMNOPQRSTUVWXYZabcdefghijklmnopqrstuvwxyz0123456789+/".

Definition b64_digit (n : N) : ascii :=
  nth (N.to_nat n) b64_alphabet "="%char.

Fixpoint b64_bytes (l : list N) : string :=
  match l with
  | [] => EmptyString
  | [a] =>
      let n := (a * 65536)%N in
      String (b64_digit (n / 262144))
        (String (b64_digit ((n / 4096) mod 64)) "==")
  | [a; b] =>
      let n := (a * 65536 + b * 256)%N in
      String (b64_digit (n / 262144))
        (String (b64_digit ((n / 4096) mod 64))
           (String (b64_digit ((n / 64) mod 64)) "="))
  | a :: b :: c :: rest =>
      let n := (a * 65536 + b * 256 + c)%N in
      String (b64_digit (n / 262144))
        (String (b64_digit ((n / 4096) mod 64))
           (String (b64_digit ((n / 64) mod 64))
              (String (b64_digit (n mod 64)) (b64_bytes rest))))
  end.

Definition b64encode_bytes (s : string) : string :=
  b64_bytes (map N_of_ascii (list_ascii_of_string s)).

(** ** The object *)

(** The attributes of [self] that the class reads or writes.  [timeout] is
    counted in polls of the instance state; [ipa_config] is the mapping the
    framework read from the configuration file. *)
Record OCICloud : Type := mkOCICloud {
  availability_domain : PyVal;
  compartment_id : PyVal;
  subnet_id : PyVal;
  instance_type : PyVal;
  image_id : PyVal;
  ssh_private_key_file : PyVal;
  ssh_user : PyVal;
  timeout : nat;
  cloud_config : PyVal;
  ipa_config : list (string * PyVal);
  running_instance_id : PyVal;
  instance_ip : PyVal
}.

(** ** The monad *)

Inductive Res (A : Type) : Type :=
  | Ok (a : A)
  | Raise (e : Exn).
Arguments Ok {A} a.
Arguments Raise {A} e.

Definition St : Type := (OCICloud * list Request)%type.

Definition M (A : Type) : Type := St -> Res A * St.

Definition ret {A} (a : A) : M A := fun st => (Ok a, st).

Definition raise {A} (e : Exn) : M A := fun st => (Raise e, st).

Definition bind {A B} (m : M A) (f : A -> M B) : M B :=
  fun st =>
    match m st with
    | (Ok a, st') => f a st'
    | (Raise e, st') => (Raise e, st')
    end.

(** [try: m except Exception as e: h e]. *)
Definition try_except {A} (m : M A) (h : Exn -> M A) : M A :=
  fun st =>
    match m st with
    | (Ok a, st') => (Ok a, st')
    | (Raise e, st') => h e st'
    end.

Definition get_self : M OCICloud := fun st => (Ok (fst st), st).

Definition modify_self (f : OCICloud -> OCICloud) : M unit :=
  fun st => (Ok tt, (f (fst st), snd st)).

Declare Scope py_scope.
Delimit Scope py_scope with py.
Notation "x <- m ;; k" := (bind m (fun x => k))
  (at level 61, m at next level, right associativity) : py_scope.
Notation "m ;;; k" := (bind m (fun _ => k))
  (at level 61, right associativity) : py_scope.
Open Scope py_scope.

(** The attribute [name] of [v], when [v] has it.  A response object has
    its [data]; strings, [None], lists and dicts have none of the attributes
    the class reads. *)
Definition attribute (v : PyVal) (name : string) : option PyVal :=
  match v with
  | VModel _ attrs => assoc name attrs
  | VResponse _ d => if String.eqb name "data" then Some d else None
  | _ => None
  end.

(** [v.name]. *)
Definition getattr (v : PyVal) (name : string) : M PyVal :=
  match attribute v name with
  | Some x => ret x
  | None => raise (AttributeError name)
  end.

(** [v + 'literal']. *)
Definition py_add_str (v : PyVal) (s : string) : M string :=
  match v with
  | VStr t => ret (t ++ s)
  | _ => raise TypeError
  end.

(** [for x in v]: the items iterated over (the characters of a string, the
    bytes of a byte string, the keys of a dict). *)
Definition py_iter (v : PyVal) : M (list PyVal) :=
  match v with
  | VList l => ret l
  | VStr s => ret (chars s)
  | VBytes s => ret (map (fun c => VInt (nat_of_ascii c)) (list_ascii_of_string s))
  | VDict d => ret (map (fun kv => VStr (fst kv)) d)
  | _ => raise TypeError
  end.

(** Modelled from the spec: [self.ipa_config[key]], the run's configuration
    as the framework ([IpaCloud], not under src/) hands it to the class.  A
    value that is not present in the configuration reads as [None]: the
    constructor tests the value it has read, and the absence of a required
    value is the provisioning error of the spec, not a failed lookup. *)
Definition config_value (config : list (string * PyVal)) (key : string)
    : PyVal :=
  match assoc key config with
  | Some v => v
  | None => VNone
  end.

(** Assignments to the attributes of [self]. *)
Definition set_availability_domain (v : PyVal) (o : OCICloud) : OCICloud :=
  mkOCICloud v (compartment_id o) (subnet_id o) (instance_type o)
    (image_id o) (ssh_private_key_file o) (ssh_user o) (timeout o)
    (cloud_config o) (ipa_config o) (running_instance_id o) (instance_ip o).

Definition set_compartment_id (v : PyVal) (o : OCICloud) : OCICloud :=
  mkOCICloud (availability_domain o) v (subnet_id o) (instance_type o)
    (image_id o) (ssh_private_key_file o) (ssh_user o) (timeout o)
    (cloud_config o) (ipa_config o) (running_instance_id o) (instance_ip o).

Definition set_subnet_id (v : PyVal) (o : OCICloud) : OCICloud :=
  mkOCICloud (availability_domain o) (compartment_id o) v (instance_type o)
    (image_id o) (ssh_private_key_file o) (ssh_user o) (timeout o)
    (cloud_config o) (ipa_config o) (running_instance_id o) (instance_ip o).

Definition set_image_id (v : PyVal) (o : OCICloud) : OCICloud :=
  mkOCICloud (availability_domain o) (compartment_id o) (subnet_id o)
    (instance_type o) v (ssh_private_key_file o) (ssh_user o) (timeout o)
    (cloud_config o) (ipa_config o) (running_instance_id o) (instance_ip o).

Definition set_ssh_user (v : PyVal) (o : OCICloud) : OCICloud :=
  mkOCICloud (availability_domain o) (compartment_id o) (subnet_id o)
    (instance_type o) (image_id o) (ssh_private_key_file o) v (timeout o)
    (cloud_config o) (ipa_config o) (running_instance_id o) (instance_ip o).

Definition set_running_instance_id (v : PyVal) (o : OCICloud) : OCICloud :=
  mkOCICloud (availability_domain o) (compartment_id o) (subnet_id o)
    (instance_type o) (image_id o) (ssh_private_key_file o) (ssh_user o)
    (timeout o) (cloud_config o) (ipa_config o) v (instance_ip o).

Definition set_instance_ip (v : PyVal) (o : OCICloud) : OCICloud :=
  mkOCICloud (availability_domain o) (compartment_id o) (subnet_id o)
    (instance_type o) (image_id o) (ssh_private_key_file o) (ssh_user o)
    (timeout o) (cloud_config o) (ipa_config o) (running_instance_id o) v.

(** The sentinel [oci.waiter.WAIT_RESOURCE_NOT_FOUND]. *)
Definition WAIT_RESOURCE_NOT_FOUND : PyVal :=
  VModel "Sentinel" [("name", VStr "WaitResourceNotFound")].

(** ** The class *)

Section OCICloud_methods.

(** The cloud and its SDK. *)
Variable provider : Provider.

(** img_proof.ipa_constants, not under src/. *)
Variable OCI_DEFAULT_TYPE : string.
Variable OCI_DEFAULT_USER : string.

(** The number of re-fetches [oci.wait_until] makes before its maximum
    wait time is over. *)
Variable max_polls : nat.

(** A call outside the class: the request is logged and the provider's
    answer to it, given the log, is returned or raised. *)
Definition call (r : Request) : M PyVal :=
  fun st =>
    match provider (snd st) r with
    | Returns v => (Ok v, (fst st, (snd st ++ [r])%list))
    | Raises e => (Raise e, (fst st, (snd st ++ [r])%list))
    end.

(** A call of an SDK client method: what comes back is a response object
    that remembers its request and holds the model as [.data]. *)
Definition api (r : Request) : M PyVal :=
  v <- call r;;
  ret (VResponse r v).

(** Modelled from the spec: the poll-until-state primitive.  The class
    calls [oci.wait_until(client, response, property, state,
    succeed_on_not_found)] of the SDK, which is not under src/: the
    response's [data.property] is compared with [state]; while it differs
    the response's own request is issued again; a 404 of that re-fetch is
    a success when [succeed_on_not_found] is set; when the wait time is
    over [MaximumWaitTimeExceeded] is raised. *)
Definition not_found (e : Exn) : bool :=
  match e with
  | ServiceError status => Nat.eqb status 404
  | _ => false
  end.

(** The re-fetch of [wait_until]: [None] stands for the resource that is
    not found while [succeed_on_not_found] is set. *)
Definition refetch (response : PyVal) (succeed_on_not_found : bool)
    : M (option PyVal) :=
  match response with
  | VResponse request _ =>
      try_except
        (response' <- api request;; ret (Some response'))
        (fun e =>
           if (not_found e && succeed_on_not_found)%bool then ret None
           else raise e)
  | _ => raise (AttributeError "request")
  end.

Fixpoint wait_until_loop (polls : nat) (response : PyVal)
    (property state : string) (succeed_on_not_found : bool) : M PyVal :=
  data <- getattr response "data";;
  v <- getattr data property;;
  if py_eq_str v state then ret response
  else
    match polls with
    | O => raise MaximumWaitTimeExceeded
    | S polls' =>
        fetched <- refetch response succeed_on_not_found;;
        match fetched with
        | Some response' =>
            wait_until_loop polls' response' property state
              succeed_on_not_found
        | None => ret WAIT_RESOURCE_NOT_FOUND
        end
    end.

Definition wait_until (response : PyVal) (property state : string)
    (succeed_on_not_found : bool) : M PyVal :=
  wait_until_loop max_polls response property state succeed_on_not_found.

(** *** Network scaffolding *)

Definition _add_route_rule_to_gateway (internet_gateway vcn : PyVal)
    : M PyVal :=
  rt_id <- getattr vcn "default_route_table_id";;
  r <- api (Req get_route_table [rt_id] []);;
  result <- getattr r "data";;
  route_rules <- getattr result "route_rules";;
  rules <- match route_rules with
           | VList l => ret l
           | _ => raise (AttributeError "append")
           end;;
  gw_id <- getattr internet_gateway "id";;
  let route_rules' :=
    VList (rules ++ [VModel "RouteRule"
                       [("cidr_block", VStr "0.0.0.0/0");
                        ("network_entity_id", gw_id)]])%list in
  rt_id' <- getattr vcn "default_route_table_id";;
  api (Req update_route_table
         [rt_id'; VModel "UpdateRouteTableDetails"
                    [("route_rules", route_rules')]] []);;;
  rt_id'' <- getattr vcn "default_route_table_id";;
  g <- api (Req get_route_table [rt_id''] []);;
  w <- wait_until g "lifecycle_state" "AVAILABLE" false;;
  getattr w "data".

Definition _create_internet_gateway (vcn display_name : PyVal) : M PyVal :=
  n <- py_add_str display_name "-gateway";;
  c <- getattr vcn "compartment_id";;
  v <- getattr vcn "id";;
  r <- api (Req create_internet_gateway
              [VModel "CreateInternetGatewayDetails"
                 [("display_name", VStr n); ("compartment_id", c);
                  ("is_enabled", VBool true); ("vcn_id", v)]] []);;
  internet_gateway <- getattr r "data";;
  gid <- getattr internet_gateway "id";;
  g <- api (Req get_internet_gateway [gid] []);;
  wait_until g "lifecycle_state" "AVAILABLE" false;;;
  _add_route_rule_to_gateway internet_gateway vcn;;;
  ret internet_gateway.

Definition _delete_internet_gateway (gateway_id : PyVal) : M unit :=
  api (Req delete_internet_gateway [gateway_id] []);;;
  g <- api (Req get_internet_gateway [gateway_id] []);;
  wait_until g "lifecycle_state" "TERMINATED" true;;;
  ret tt.

Definition _list_gateways_in_vcn (compartment vcn_id : PyVal) : M PyVal :=
  r <- api (Req list_internet_gateways []
              [("compartment_id", compartment); ("vcn_id", vcn_id)]);;
  getattr r "data".

(** The loop of [_get_gateway_in_vcn_by_name]. *)
Fixpoint first_gateway_named (display_name : string) (gateways : list PyVal)
    : M PyVal :=
  match gateways with
  | [] => ret VNone
  | ig :: rest =>
      n <- getattr ig "display_name";;
      if py_eq_str n display_name then ret ig
      else first_gateway_named display_name rest
  end.

Definition _get_gateway_in_vcn_by_name (vcn_id : PyVal)
    (display_name : string) : M PyVal :=
  self <- get_self;;
  gateways <- _list_gateways_in_vcn (compartment_id self) vcn_id;;
  items <- py_iter gateways;;
  first_gateway_named display_name items.

Definition _create_vcn (display_name cidr_block : PyVal) : M PyVal :=
  self <- get_self;;
  n <- py_add_str display_name "-vnet";;
  r <- api (Req create_vcn
              [VModel "CreateVcnDetails"
                 [("cidr_block", cidr_block); ("display_name", VStr n);
                  ("compartment_id", compartment_id self)]] []);;
  vcn <- getattr r "data";;
  vid <- getattr vcn "id";;
  g <- api (Req get_vcn [vid] []);;
  wait_until g "lifecycle_state" "AVAILABLE" false;;;
  ret vcn.

Definition _delete_vcn (vcn_id : PyVal) : M unit :=
  api (Req delete_vcn [vcn_id] []);;;
  g <- api (Req get_vcn [vcn_id] []);;
  wait_until g "lifecycle_state" "TERMINATED" true;;;
  ret tt.

Definition _create_subnet (availability_domain vcn display_name : PyVal)
    : M PyVal :=
  c <- getattr vcn "compartment_id";;
  n <- py_add_str display_name "-subnet";;
  v <- getattr vcn "id";;
  b <- getattr vcn "cidr_block";;
  r <- api (Req create_subnet
              [VModel "CreateSubnetDetails"
                 [("compartment_id", c);
                  ("availability_domain", availability_domain);
                  ("display_name", VStr n); ("vcn_id", v);
                  ("cidr_block", b)]] []);;
  subnet <- getattr r "data";;
  sid <- getattr subnet "id";;
  g <- api (Req get_subnet [sid] []);;
  wait_until g "lifecycle_state" "AVAILABLE" false;;;
  ret subnet.

Definition _get_subnet (subnet_id : PyVal) : M PyVal :=
  api (Req get_subnet [subnet_id] []).

Definition _delete_subnet (subnet_id : PyVal) : M unit :=
  api (Req delete_subnet [subnet_id] []);;;
  g <- api (Req get_subnet [subnet_id] []);;
  wait_until g "lifecycle_state" "TERMINATED" true;;;
  ret tt.

Definition _clear_route_rules (vcn : PyVal) : M unit :=
  rt_id <- getattr vcn "default_route_table_id";;
  api (Req update_route_table
         [rt_id; VModel "UpdateRouteTableDetails"
                   [("route_rules", VList [])]] []);;;
  rt_id' <- getattr vcn "default_route_table_id";;
  g <- api (Req get_route_table [rt_id'] []);;
  wait_until g "lifecycle_state" "AVAILABLE" false;;;
  ret tt.

(** *** Instance lookup and state *)

Definition _get_config (config_file profile_name : PyVal) : M PyVal :=
  let kwargs := [] in
  let kwargs :=
    if truthy config_file
    then (kwargs ++ [("file_location", config_file)])%list else kwargs in
  let kwargs :=
    if truthy profile_name
    then (kwargs ++ [("profile_name", profile_name)])%list else kwargs in
  call (Req config_from_file [VDict kwargs] []).

Definition _get_instance : M PyVal :=
  self <- get_self;;
  try_except
    (r <- api (Req get_instance [running_instance_id self] []);;
     getattr r "data")
    (fun _ =>
       raise (OCICloudException
                ("Instance with ID: "
                 ++ py_str (running_instance_id self) ++ " not found."))).

Definition _get_instance_state : M PyVal :=
  instance <- _get_instance;;
  self <- get_self;;
  try_except
    (getattr instance "lifecycle_state")
    (fun _ =>
       raise (OCICloudException
                ("Instance with id: "
                 ++ py_str (running_instance_id self)
                 ++ ", cannot be found."))).

Definition _get_vnic_attachments (compartment instance_id : PyVal)
    : M PyVal :=
  r <- api (Req list_vnic_attachments []
              [("compartment_id", compartment);
               ("instance_id", instance_id)]);;
  getattr r "data".

Definition _is_instance_running : M bool :=
  state <- _get_instance_state;;
  match state with
  | VStr s => ret (String.eqb (lower s) "running")
  | _ => raise (AttributeError "lower")
  end.

(** Modelled from the spec: [IpaCloud._wait_on_instance(state, timeout)]
    of the framework's base class, which is not under src/.  The state of
    the instance is fetched again and again until it equals the expected
    state; when the timeout is over without that, the provisioning error
    is raised.  The timeout is counted in polls. *)
Fixpoint _wait_on_instance (state : string) (timeout : nat) : M unit :=
  match timeout with
  | O =>
      raise (OCICloudException
               ("Instance has not arrived at the given state: " ++ state))
  | S timeout' =>
      current_state <- _get_instance_state;;
      if py_eq_str current_state state then ret tt
      else _wait_on_instance state timeout'
  end.

(** *** Lifecycle *)

Definition b64encode (v : PyVal) : M string :=
  match v with
  | VBytes s => ret (b64encode_bytes s)
  | _ => raise TypeError
  end.

Definition _launch_instance : M unit :=
  display_name <- call (Req generate_instance_name [VStr "oci-ipa-test"] []);;
  vcn <- _create_vcn display_name (VStr "10.0.0.0/29");;
  self <- get_self;;
  subnet <- _create_subnet vcn (availability_domain self) display_name;;
  _create_internet_gateway vcn display_name;;;
  user_data <- call (Req _get_user_data [] []);;
  encoded <- b64encode user_data;;
  let instance_metadata := VDict [("user_data", VStr encoded)] in
  self <- get_self;;
  sid <- getattr subnet "id";;
  let launch_instance_details :=
    VModel "LaunchInstanceDetails"
      [("display_name", display_name);
       ("compartment_id", compartment_id self);
       ("availability_domain", availability_domain self);
       ("shape", py_or (instance_type self) (VStr OCI_DEFAULT_TYPE));
       ("metadata", instance_metadata);
       ("source_details",
        VModel "InstanceSourceViaImageDetails"
          [("image_id", image_id self)]);
       ("create_vnic_details",
        VModel "CreateVnicDetails" [("subnet_id", sid)])] in
  r <- api (Req launch_instance [launch_instance_details] []);;
  launch_instance_response <- getattr r "data";;
  iid <- getattr launch_instance_response "id";;
  modify_self (set_running_instance_id iid);;;
  self <- get_self;;
  _wait_on_instance "RUNNING" (timeout self).

Definition _set_image_id : M unit :=
  instance <- _get_instance;;
  source_details <- getattr instance "source_details";;
  i <- getattr source_details "image_id";;
  modify_self (set_image_id i).

(** The loop of [_set_instance_ip]. *)
Fixpoint first_address (vnic_attachments : list PyVal) : M unit :=
  match vnic_attachments with
  | [] => ret tt
  | attachment :: rest =>
      vid <- getattr attachment "vnic_id";;
      r <- api (Req get_vnic [vid] []);;
      vnic <- getattr r "data";;
      public_address <- getattr vnic "public_ip";;
      private_address <- getattr vnic "private_ip";;
      if truthy (py_or public_address private_address)
      then modify_self
             (set_instance_ip (py_or public_address private_address))
      else first_address rest
  end.

Definition _set_instance_ip : M unit :=
  instance <- _get_instance;;
  modify_self (set_instance_ip VNone);;;
  c <- getattr instance "compartment_id";;
  i <- getattr instance "id";;
  vnic_attachments <- _get_vnic_attachments c i;;
  items <- py_iter vnic_attachments;;
  first_address items;;;
  self <- get_self;;
  if negb (truthy (instance_ip self))
  then raise (OCICloudException "IP address for instance cannot be found.")
  else ret tt.

(** [instance.instance_action(action)]: the attribute is read on the object
    [get_instance(...).data], and what is read is called; the call of a
    method the object has is the provider's. *)
Definition _start_instance : M unit :=
  instance <- _get_instance;;
  method <- getattr instance "instance_action";;
  call (Req instance_action [method; VStr "START"] []);;;
  self <- get_self;;
  _wait_on_instance "RUNNING" (timeout self).

Definition _stop_instance : M unit :=
  instance <- _get_instance;;
  method <- getattr instance "instance_action";;
  call (Req instance_action [method; VStr "STOP"] []);;;
  self <- get_self;;
  _wait_on_instance "STOPPED" (timeout self).

(** What the loop of [_terminate_instance] leaves in the local variables
    [vcn_id], [gateway] and [subnet_id].  When no attachment matches,
    [vcn_id] is [None] and the other two are not read afterwards. *)
Fixpoint find_network_stack (name : PyVal) (vnic_attachments : list PyVal)
    : M (PyVal * PyVal * PyVal) :=
  match vnic_attachments with
  | [] => ret (VNone, VNone, VNone)
  | attachment :: rest =>
      subnet_id <- getattr attachment "subnet_id";;
      subnet <- _get_subnet subnet_id;;
      n <- getattr subnet "display_name";;
      expected <- py_add_str name "-subnet";;
      if py_eq_str n expected then
        vcn_id <- getattr subnet "vcn_id";;
        gw_name <- py_add_str name "-gateway";;
        gateway <- _get_gateway_in_vcn_by_name vcn_id gw_name;;
        ret (vcn_id, gateway, subnet_id)
      else find_network_stack name rest
  end.

Definition _terminate_instance : M unit :=
  instance <- _get_instance;;
  name <- getattr instance "display_name";;
  self <- get_self;;
  api (Req terminate_instance [running_instance_id self] []);;;
  wait_until instance "lifecycle_state" "TERMINATED" true;;;
  c <- getattr instance "compartment_id";;
  i <- getattr instance "id";;
  vnic_attachments <- _get_vnic_attachments c i;;
  items <- py_iter vnic_attachments;;
  found <- find_network_stack name items;;
  let '(vcn_id, gateway, subnet_id) := found in
  if truthy vcn_id then
    _clear_route_rules vcn_id;;;
    (if truthy gateway then
       gid <- getattr gateway "id";;
       _delete_internet_gateway gid
     else ret tt);;;
    _delete_subnet subnet_id;;;
    _delete_vcn vcn_id
  else ret tt.

(** *** Construction *)

(** [OCICloud.__init__], after [IpaCloud.__init__] (not under src/) has
    stored the run's configuration in [self]: the attributes
    [ipa_config], [ssh_user], [ssh_private_key_file], [cloud_config],
    [instance_type], [image_id], [timeout] and [running_instance_id] of
    the state the computation starts from. *)
Definition OCICloud__init__
    (availability_domain_arg compartment_id_arg subnet_id_arg : PyVal)
    : M unit :=
  self <- get_self;;
  let ad :=
    py_or availability_domain_arg
      (config_value (ipa_config self) "availability_domain") in
  modify_self (set_availability_domain ad);;;
  if negb (truthy ad)
  then raise (OCICloudException
                "Availability domain is required to connect to OCI.")
  else
    modify_self
      (set_ssh_user (py_or (ssh_user self) (VStr OCI_DEFAULT_USER)));;;
    let c :=
      py_or compartment_id_arg
        (config_value (ipa_config self) "compartment_id") in
    modify_self (set_compartment_id c);;;
    let s :=
      py_or subnet_id_arg (config_value (ipa_config self) "subnet_id") in
    modify_self (set_subnet_id s);;;
    if negb (truthy (ssh_private_key_file self))
    then raise (OCICloudException
                  "SSH private key file is required to connect to instance.")
    else
      config <- _get_config (cloud_config self) VNone;;
      call (Req ComputeClient [config] []);;;
      call (Req VirtualNetworkClient [config] []);;;
      ret tt.

End OCICloud_methods.

(** ** Sample clouds *)

(** Models as a well-behaved provider returns them. *)
Definition sample_vcn : PyVal :=
  VModel "Vcn"
    [("id", VStr "ocid1.vcn.a"); ("compartment_id", VStr "ocid1.compartment.c");
     ("cidr_block", VStr "10.0.0.0/29");
     ("default_route_table_id", VStr "ocid1.routetable.a");
     ("display_name", VStr "oci-ipa-test-x1-vnet");
     ("lifecycle_state", VStr "AVAILABLE")].

Definition sample_subnet : PyVal :=
  VModel "Subnet"
    [("id", VStr "ocid1.subnet.a"); ("vcn_id", VStr "ocid1.vcn.a");
     ("compartment_id", VStr "ocid1.compartment.c");
     ("display_name", VStr "oci-ipa-test-x1-subnet");
     ("lifecycle_state", VStr "AVAILABLE")].

Definition sample_gateway : PyVal :=
  VModel "InternetGateway"
    [("id", VStr "ocid1.internetgateway.a"); ("vcn_id", VStr "ocid1.vcn.a");
     ("display_name", VStr "oci-ipa-test-x1-gateway");
     ("lifecycle_state", VStr "AVAILABLE")].

Definition sample_route_table : PyVal :=
  VModel "RouteTable"
    [("id", VStr "ocid1.routetable.a"); ("route_rules", VList []);
     ("lifecycle_state", VStr "AVAILABLE")].

Definition sample_instance (state : string) : PyVal :=
  VModel "Instance"
    [("id", VStr "ocid1.instance.i");
     ("compartment_id", VStr "ocid1.compartment.c");
     ("display_name", VStr "oci-ipa-test-x1");
     ("lifecycle_state", VStr state);
     ("source_details",
      VModel "InstanceSourceViaImageDetails"
        [("image_id", VStr "ocid1.image.running")])].

Definition sample_attachment (vnic : string) : PyVal :=
  VModel "VnicAttachment"
    [("id", VStr "ocid1.vnicattachment.a"); ("vnic_id", VStr vnic);
     ("subnet_id", VStr "ocid1.subnet.a")].

Definition sample_vnic (public_ip private_ip : PyVal) : PyVal :=
  VModel "Vnic" [("public_ip", public_ip); ("private_ip", private_ip)].

(** A cloud in which every request succeeds at once: created resources are
    AVAILABLE, the instance is RUNNING and has one attachment in the subnet
    the launch created. *)
Definition cloud_ok : Provider :=
  fun _ r =>
    match req_op r with
    | generate_instance_name => Returns (VStr "oci-ipa-test-x1")
    | _get_user_data => Returns (VBytes "#!/bin/bash")
    | create_vcn | get_vcn => Returns sample_vcn
    | create_subnet | get_subnet => Returns sample_subnet
    | create_internet_gateway | get_internet_gateway => Returns sample_gateway
    | list_internet_gateways => Returns (VList [sample_gateway])
    | get_route_table | update_route_table => Returns sample_route_table
    | get_vnic => Returns (sample_vnic (VStr "203.0.113.7") (VStr "10.0.0.2"))
    | get_instance | launch_instance => Returns (sample_instance "RUNNING")
    | list_vnic_attachments => Returns (VList [sample_attachment "ocid1.vnic.a"])
    | _ => Returns VNone
    end.

(** An object as the framework's constructor and [OCICloud.__init__] leave
    it, with the subnet identifier as given. *)
Definition sample_self (subnet : PyVal) : OCICloud :=
  mkOCICloud (VStr "Uocm:PHX-AD-1") (VStr "ocid1.compartment.c") subnet
    VNone (VStr "ocid1.image.abc") (VStr "/home/tux/.ssh/id_rsa")
    (VStr "opc") 3 VNone [] (VStr "ocid1.instance.i") VNone.

(** A cloud that deletes at once: every delete request succeeds and the
    resource is absent (404) on the next fetch. *)
Definition cloud_gone : Provider :=
  fun _ r =>
    match req_op r with
    | get_vcn | get_subnet | get_internet_gateway => Raises (ServiceError 404)
    | _ => cloud_ok [] r
    end.

(** A cloud in which a deleted network is still seen once, TERMINATING, and
    is absent from the second fetch on. *)
Definition cloud_terminating : Provider :=
  fun log r =>
    match req_op r with
    | get_vcn =>
        if existsb (fun q => match req_op q with get_vcn => true | _ => false end)
             log
        then Raises (ServiceError 404)
        else Returns (VModel "Vcn" [("id", VStr "ocid1.vcn.a");
                                    ("lifecycle_state", VStr "TERMINATING")])
    | _ => cloud_ok log r
    end.

(** A cloud that does not know the instance. *)
Definition cloud_missing (e : Exn) : Provider :=
  fun log r =>
    match req_op r with
    | get_instance => Raises e
    | _ => cloud_ok log r
    end.

(** ** Specification vocabulary *)

(** The message of the one error [_get_instance] raises. *)
Definition instance_not_found (self : OCICloud) : Exn :=
  OCICloudException
    ("Instance with ID: " ++ py_str (running_instance_id self) ++ " not found.").

(** [keeps view m]: running [m] leaves the [view] of [self] as it was, and
    only adds requests to the log. *)
Definition keeps {V A : Type} (view : OCICloud -> V) (m : M A) : Prop :=
  forall st,
    view (fst (snd (m st))) = view (fst st)
    /\ exists new, snd (snd (m st)) = (snd st ++ new)%list.

(** The Provisioning Context: the configuration of the run held by
    [self]. *)
Definition provisioning_context (o : OCICloud) :=
  (compartment_id o, availability_domain o, subnet_id o, instance_type o,
   image_id o, ssh_private_key_file o, timeout o).

(** The Provisioning Context without the image identifier. *)
Definition context_but_image (o : OCICloud) :=
  (compartment_id o, availability_domain o, subnet_id o, instance_type o,
   ssh_private_key_file o, timeout o).

(** [ignores f m]: [m] neither reads nor writes what the update [f] of
    [self] changes: run on the updated object, [m] returns what it returns
    on the original, issues the same requests, and leaves the updated
    version of the object it leaves on the original. *)
Definition ignores {A : Type} (f : OCICloud -> OCICloud) (m : M A) : Prop :=
  forall o log,
    m (f o, log) =
      (fst (m (o, log)), (f (fst (snd (m (o, log)))), snd (snd (m (o, log))))).

(** The requests that create a part of the Network Stack. *)
Definition creates_network (r : Request) : bool :=
  match req_op r with
  | create_vcn | create_subnet | create_internet_gateway
  | update_route_table => true
  | _ => false
  end.

(** The launch request [r] is issued against the subnet [subnet]. *)
Definition launches_in (subnet : PyVal) (r : Request) : Prop :=
  exists details vnic,
    r = Req launch_instance [details] []
    /\ attribute details "create_vnic_details" = Some vnic
    /\ attribute vnic "subnet_id" = Some subnet.

(** The claim in the words of the spec: when a subnet identifier is
    supplied, launch creates no part of a Network Stack and issues the
    launch request against the supplied subnet. *)
Definition launch_uses_supplied_subnet (provider : Provider) (ty : string)
    (polls : nat) (self : OCICloud) : Prop :=
  truthy (subnet_id self) = true ->
  let log := snd (snd (_launch_instance provider ty polls (self, []))) in
  (forall r, In r log -> creates_network r = false)
  /\ (exists r, In r log /\ launches_in (subnet_id self) r).

(** The request by which [_create_vcn] creates the network of the instance
    named [name]. *)
Definition create_vcn_request (name : string) (self : OCICloud) : Request :=
  Req create_vcn
    [VModel "CreateVcnDetails"
       [("cidr_block", VStr "10.0.0.0/29");
        ("display_name", VStr (name ++ "-vnet"));
        ("compartment_id", compartment_id self)]] [].

(** A cloud whose instance has two attachments: the first interface has a
    private address only, the second a public and a private one. *)
Definition cloud_two_nics : Provider :=
  fun log r =>
    match req_op r with
    | list_vnic_attachments =>
        Returns (VList [sample_attachment "ocid1.vnic.a";
                        sample_attachment "ocid1.vnic.b"])
    | get_vnic =>
        match req_args r with
        | [VStr v] =>
            if String.eqb v "ocid1.vnic.b"
            then Returns (sample_vnic (VStr "203.0.113.7") (VStr "10.0.0.3"))
            else Returns (sample_vnic VNone (VStr "10.0.0.2"))
        | _ => Raises (ServiceError 400)
        end
    | _ => cloud_ok log r
    end.

(** A cloud whose instance has one attachment, with the given addresses. *)
Definition cloud_one_nic (public_ip private_ip : PyVal) : Provider :=
  fun log r =>
    match req_op r with
    | get_vnic => Returns (sample_vnic public_ip private_ip)
    | _ => cloud_ok log r
    end.

(** The attachment [att] leads to a virtual interface with the addresses
    [pub] and [priv] ([None] where it has none). *)
Definition exposes (provider : Provider) (att pub priv : PyVal) : Prop :=
  exists vid vnic,
    attribute att "vnic_id" = Some vid
    /\ (forall log, provider log (Req get_vnic [vid] []) = Returns vnic)
    /\ attribute vnic "public_ip" = Some pub
    /\ attribute vnic "private_ip" = Some priv.

Definition exposes_nothing (provider : Provider) (att : PyVal) : Prop :=
  exists pub priv,
    exposes provider att pub priv /\ truthy pub = false /\ truthy priv = false.

(** The provider knows the instance of [self] and lists [atts] as its
    attachments. *)
Definition attachments_of (provider : Provider) (self : OCICloud)
    (log : list Request) (atts : list PyVal) : Prop :=
  exists inst c i,
    provider log (Req get_instance [running_instance_id self] []) = Returns inst
    /\ attribute inst "compartment_id" = Some c
    /\ attribute inst "id" = Some i
    /\ provider (log ++ [Req get_instance [running_instance_id self] []])%list
         (Req list_vnic_attachments []
            [("compartment_id", c); ("instance_id", i)]) = Returns (VList atts).

(** The claim in the words of the spec: the public address of an attachment
    that has both a public and a private address is the address resolved. *)
Definition returns_public_of_attachment_with_both (provider : Provider)
    (self : OCICloud) (atts : list PyVal) : Prop :=
  forall att pub priv,
    In att atts -> exposes provider att pub priv ->
    truthy pub = true -> truthy priv = true ->
    instance_ip (fst (snd (_set_instance_ip provider (self, [])))) = pub.

(** The claim in the words of the spec: when some attachment exposes a
    public address, the address resolved is a public address of an
    attachment. *)
Definition returns_a_public_address (provider : Provider) (self : OCICloud)
    (atts : list PyVal) : Prop :=
  (exists att pub priv,
      In att atts /\ exposes provider att pub priv /\ truthy pub = true) ->
  exists att pub priv,
    In att atts /\ exposes provider att pub priv /\ truthy pub = true
    /\ instance_ip (fst (snd (_set_instance_ip provider (self, [])))) = pub.

(** A cloud whose instance is stopped. *)
Definition cloud_stopped : Provider :=
  fun log r =>
    match req_op r with
    | get_instance => Returns (sample_instance "STOPPED")
    | _ => cloud_ok log r
    end.

Definition get_instance_request (self : OCICloud) : Request :=
  Req get_instance [running_instance_id self] [].

(** The error of a wait that is over before the state is reached. *)
Definition not_arrived (state : string) : Exn :=
  OCICloudException ("Instance has not arrived at the given state: " ++ state).

(** The object as [IpaCloud.__init__] leaves it for [OCICloud.__init__],
    with the given SSH key path and configuration. *)
Definition sample_base (key : PyVal) (config : list (string * PyVal))
    : OCICloud :=
  mkOCICloud VNone VNone VNone VNone (VStr "ocid1.image.abc") key VNone 3
    VNone config VNone VNone.


(** A value is absent: not supplied as argument and not present in the
    configuration. *)
Definition absent (arg : PyVal) (config : list (string * PyVal))
    (key : string) : Prop :=
  truthy arg = false
  /\ forall v, assoc key config = Some v -> truthy v = false.

(** The claim in the words of the spec: construction raises the
    provisioning error when the availability domain, the compartment, the
    subnet or the SSH key path is absent. *)
Definition construction_requires_all (provider : Provider) (user : string)
    (self : OCICloud) (ad c s : PyVal) : Prop :=
  absent ad (ipa_config self) "availability_domain"
  \/ absent c (ipa_config self) "compartment_id"
  \/ absent s (ipa_config self) "subnet_id"
  \/ truthy (ssh_private_key_file self) = false ->
  exists msg,
    fst (OCICloud__init__ provider user ad c s (self, [])) =
      Raise (OCICloudException msg).

(** A cloud whose SDK refuses the dict it is handed where it reads the
    location of its configuration file. *)
Definition cloud_strict_config : Provider :=
  fun log r =>
    match req_op r with
    | config_from_file =>
        match req_args r with
        | [VStr _] | [] => Returns (VDict [])
        | _ => Raises TypeError
        end
    | _ => cloud_ok log r
    end.

Definition sample_config : list (string * PyVal) :=
  [("availability_domain", VStr "Uocm:PHX-AD-1");
   ("compartment_id", VNone); ("subnet_id", VNone)].

(** [issues_only allowed m]: running [m] only adds requests to the log, and
    every request it adds has an operation that [allowed] admits. *)
Definition issues_only {A : Type} (allowed : ApiOp -> bool) (m : M A) : Prop :=
  forall st,
    exists new,
      snd (snd (m st)) = (snd st ++ new)%list
      /\ forallb (fun r => allowed (req_op r)) new = true.

(** The requests that only read the instance and its interfaces. *)
Definition reads_addresses (o : ApiOp) : bool :=
  match o with
  | get_instance | list_vnic_attachments | get_vnic => true
  | _ => false
  end.

(** The lookup of the instance and the action on it. *)
Definition looks_up_or_acts (o : ApiOp) : bool :=
  match o with
  | get_instance | instance_action => true
  | _ => false
  end.

(** The name generation and the requests on the virtual network. *)
Definition names_or_makes_vcn (o : ApiOp) : bool :=
  match o with
  | generate_instance_name | create_vcn | get_vcn => true
  | _ => false
  end.

(** The requests that remove something from the cloud. *)
Definition removes (o : ApiOp) : bool :=
  match o with
  | delete_vcn | delete_subnet | delete_internet_gateway
  | terminate_instance => true
  | _ => false
  end.

(** The route rule that sends all traffic to the entity [target]. *)
Definition default_route (target : PyVal) : PyVal :=
  VModel "RouteRule"
    [("cidr_block", VStr "0.0.0.0/0"); ("network_entity_id", target)].

(** The request that sets the rules of the route table [table]. *)
Definition update_rules_request (table : PyVal) (rules : list PyVal) : Request :=
  Req update_route_table
    [table; VModel "UpdateRouteTableDetails" [("route_rules", VList rules)]] [].

(** The request that creates the gateway '<name>-gateway' in a network. *)
Definition create_gateway_request (name : string) (compartment vcn_id : PyVal)
    : Request :=
  Req create_internet_gateway
    [VModel "CreateInternetGatewayDetails"
       [("display_name", VStr (name ++ "-gateway"));
        ("compartment_id", compartment);
        ("is_enabled", VBool true); ("vcn_id", vcn_id)]] [].

(** A cloud whose route table already holds a rule. *)
Definition cloud_with_rule : Provider :=
  fun log r =>
    match req_op r with
    | get_route_table =>
        Returns (VModel "RouteTable"
                   [("id", VStr "ocid1.routetable.a");
                    ("route_rules", VList [default_route (VStr "ocid1.drg.a")]);
                    ("lifecycle_state", VStr "AVAILABLE")])
    | _ => cloud_ok log r
    end.

(** A cloud whose route table has no list of rules. *)
Definition cloud_without_rules : Provider :=
  fun log r =>
    match req_op r with
    | get_route_table =>
        Returns (VModel "RouteTable"
                   [("id", VStr "ocid1.routetable.a"); ("route_rules", VNone);
                    ("lifecycle_state", VStr "AVAILABLE")])
    | _ => cloud_ok log r
    end.

(** The request that lists the gateways of a network in a compartment. *)
Definition list_gateways_request (compartment vcn_id : PyVal) : Request :=
  Req list_internet_gateways []
    [("compartment_id", compartment); ("vcn_id", vcn_id)].

(** The gateway [g] has a display name, and it is not [name]. *)
Definition named_otherwise (name : string) (g : PyVal) : Prop :=
  exists n, attribute g "display_name" = Some n /\ py_eq_str n name = false.

(** The error [_get_instance_state] raises for an instance without state. *)
Definition state_not_found (self : OCICloud) : Exn :=
  OCICloudException
    ("Instance with id: " ++ py_str (running_instance_id self)
     ++ ", cannot be found.").

(** A cloud whose network has two gateways. *)
Definition cloud_two_gateways : Provider :=
  fun log r =>
    match req_op r with
    | list_internet_gateways =>
        Returns (VList [VModel "InternetGateway"
                          [("id", VStr "ocid1.internetgateway.z");
                           ("display_name", VStr "other-gateway")];
                        sample_gateway])
    | _ => cloud_ok log r
    end.

(** A cloud whose instance has no lifecycle state yet. *)
Definition cloud_stateless : Provider :=
  fun log r =>
    match req_op r with
    | get_instance =>
        Returns (VModel "Instance" [("id", VStr "ocid1.instance.i");
                                    ("lifecycle_state", VNone)])
    | _ => cloud_ok log r
    end.

(** Every attribute of [self] but [running_instance_id]. *)
Definition all_but_instance_id (o : OCICloud) :=
  (availability_domain o, compartment_id o, subnet_id o, instance_type o,
   image_id o, ssh_private_key_file o, ssh_user o, timeout o, cloud_config o,
   ipa_config o, instance_ip o).

(** Every attribute of [self] but [instance_ip]. *)
Definition all_but_instance_ip (o : OCICloud) :=
  (availability_domain o, compartment_id o, subnet_id o, instance_type o,
   image_id o, ssh_private_key_file o, ssh_user o, timeout o, cloud_config o,
   ipa_config o, running_instance_id o).

(** Every attribute of [self] but [image_id]. *)
Definition all_but_image_id (o : OCICloud) :=
  (availability_domain o, compartment_id o, subnet_id o, instance_type o,
   ssh_private_key_file o, ssh_user o, timeout o, cloud_config o,
   ipa_config o, running_instance_id o, instance_ip o).

(** An object with a cached address. *)
Definition sample_cached : OCICloud :=
  set_instance_ip (VStr "198.51.100.9") (sample_self VNone).


(** The request that creates the subnet '<name>-subnet' of a network. *)
Definition create_subnet_request (name : string)
    (compartment domain vcn_id cidr : PyVal) : Request :=
  Req create_subnet
    [VModel "CreateSubnetDetails"
       [("compartment_id", compartment); ("availability_domain", domain);
        ("display_name", VStr (name ++ "-subnet")); ("vcn_id", vcn_id);
        ("cidr_block", cidr)]] [].

(** * Properties *)

(** ** Running the monad *)

Lemma bind_ok {A B} (m : M A) (f : A -> M B) st a st' :
  m st = (Ok a, st') -> bind m f st = f a st'.
Proof. intros H. unfold bind. rewrite H. reflexivity. Qed.

Lemma bind_raise {A B} (m : M A) (f : A -> M B) st e st' :
  m st = (Raise e, st') -> bind m f st = (Raise e, st').
Proof. intros H. unfold bind. rewrite H. reflexivity. Qed.

Lemma call_returns provider r v o log :
  provider log r = Returns v ->
  call provider r (o, log) = (Ok v, (o, (log ++ [r])%list)).
Proof. intros H. unfold call. simpl. rewrite H. reflexivity. Qed.

Lemma call_raises provider r e o log :
  provider log r = Raises e ->
  call provider r (o, log) = (Raise e, (o, (log ++ [r])%list)).
Proof. intros H. unfold call. simpl. rewrite H. reflexivity. Qed.

Lemma api_returns provider r v o log :
  provider log r = Returns v ->
  api provider r (o, log) = (Ok (VResponse r v), (o, (log ++ [r])%list)).
Proof.
  intros H. unfold api.
  rewrite (bind_ok _ _ _ _ _ (call_returns _ _ _ o _ H)). reflexivity.
Qed.

Lemma api_raises provider r e o log :
  provider log r = Raises e ->
  api provider r (o, log) = (Raise e, (o, (log ++ [r])%list)).
Proof.
  intros H. unfold api.
  rewrite (bind_raise _ _ _ _ _ (call_raises _ _ _ o _ H)). reflexivity.
Qed.

Lemma getattr_some v name x st :
  attribute v name = Some x -> getattr v name st = (Ok x, st).
Proof. intros H. unfold getattr. rewrite H. reflexivity. Qed.

Lemma getattr_none v name st :
  attribute v name = None -> getattr v name st = (Raise (AttributeError name), st).
Proof. intros H. unfold getattr. rewrite H. reflexivity. Qed.

(** ** Instance lookup *)

Lemma _get_instance_raises provider self log e :
  provider log (Req get_instance [running_instance_id self] []) = Raises e ->
  _get_instance provider (self, log) =
    (Raise (instance_not_found self),
     (self, (log ++ [Req get_instance [running_instance_id self] []])%list)).
Proof.
  intros H. unfold _get_instance, bind at 1, get_self. simpl.
  unfold try_except.
  rewrite (bind_raise _ _ _ _ _ (api_raises _ _ _ self _ H)).
  reflexivity.
Qed.

Lemma _get_instance_returns provider self log inst :
  provider log (Req get_instance [running_instance_id self] []) = Returns inst ->
  _get_instance provider (self, log) =
    (Ok inst,
     (self, (log ++ [Req get_instance [running_instance_id self] []])%list)).
Proof.
  intros H. unfold _get_instance, bind at 1, get_self. simpl.
  unfold try_except.
  rewrite (bind_ok _ _ _ _ _ (api_returns _ _ _ self _ H)).
  reflexivity.
Qed.

(** C10.  Whatever exception the provider's get-instance call raises, instance
    lookup raises the one error 'Instance with ID: <id> not found.': two
    lookups that fail for different reasons end in the same result and the
    same state. *)
Theorem get_instance_failure_is_not_found :
  forall (p1 p2 : Provider) (self : OCICloud) (log : list Request)
         (e1 e2 : Exn),
    p1 log (Req get_instance [running_instance_id self] []) = Raises e1 ->
    p2 log (Req get_instance [running_instance_id self] []) = Raises e2 ->
    fst (_get_instance p1 (self, log)) =
      Raise (OCICloudException
               ("Instance with ID: " ++ py_str (running_instance_id self)
                ++ " not found."))
    /\ _get_instance p1 (self, log) = _get_instance p2 (self, log).
Proof.
  intros p1 p2 self log e1 e2 H1 H2.
  rewrite (_get_instance_raises _ _ _ _ H1), (_get_instance_raises _ _ _ _ H2).
  split; reflexivity.
Qed.

Lemma get_instance_failure_is_not_found_witness :
  fst (_get_instance (cloud_missing (ServiceError 404)) (sample_self VNone, [])) =
    Raise (OCICloudException "Instance with ID: ocid1.instance.i not found.")
  /\ _get_instance (cloud_missing (ServiceError 404)) (sample_self VNone, []) =
     _get_instance (cloud_missing (ServiceError 500)) (sample_self VNone, []).
Proof.
  apply (get_instance_failure_is_not_found
           (cloud_missing (ServiceError 404)) (cloud_missing (ServiceError 500))
           (sample_self VNone) [] (ServiceError 404) (ServiceError 500));
    reflexivity.
Defined.

(** ** Launch *)

(** C2.  The launch of an instance in a cloud where every request succeeds:
    the virtual network is created and seen AVAILABLE, and then the call of
    [_create_subnet], which receives the network where it expects the
    availability domain and the availability domain where it expects the
    network, raises [AttributeError]: no subnet, gateway or route rule is
    created.  The same holds in every cloud, whenever the availability
    domain is a string. *)
Theorem launch_stops_after_the_network :
  _launch_instance cloud_ok "VM.Standard2.1" 5 (sample_self VNone, []) =
    (Raise (AttributeError "compartment_id"),
     (sample_self VNone,
      [Req generate_instance_name [VStr "oci-ipa-test"] [];
       Req create_vcn
         [VModel "CreateVcnDetails"
            [("cidr_block", VStr "10.0.0.0/29");
             ("display_name", VStr "oci-ipa-test-x1-vnet");
             ("compartment_id", VStr "ocid1.compartment.c")]] [];
       Req get_vcn [VStr "ocid1.vcn.a"] []]))
  /\ forall (provider : Provider) (polls : nat) (vcn display_name : PyVal)
            (ad : string) (st : St),
       _create_subnet provider polls vcn (VStr ad) display_name st =
         (Raise (AttributeError "compartment_id"), st).
Proof.
  split.
  - vm_compute. reflexivity.
  - intros. reflexivity.
Qed.

(** ** Terminate *)

(** C3.  The termination of an instance whose attachment lies in the subnet
    '<instance-name>-subnet': after the terminate request the wait is given
    the instance model where a response is expected and raises, so nothing
    of the network is removed.  Nor would the later steps remove it: the
    search of the network stack reads the display name of the response
    object of [_get_subnet] and raises for every attachment, and
    [_clear_route_rules] is given the identifier of the network where it
    reads the default route table of a network. *)
Theorem terminate_removes_nothing :
  _terminate_instance cloud_ok 5 (sample_self VNone, []) =
    (Raise (AttributeError "data"),
     (sample_self VNone,
      [Req get_instance [VStr "ocid1.instance.i"] [];
       Req terminate_instance [VStr "ocid1.instance.i"] []]))
  /\ (forall (provider : Provider) (name attachment : PyVal)
             (rest : list PyVal) (st : St),
        exists e st',
          find_network_stack provider name (attachment :: rest) st =
            (Raise e, st'))
  /\ (forall (provider : Provider) (polls : nat) (vcn_id : string) (st : St),
        _clear_route_rules provider polls (VStr vcn_id) st =
          (Raise (AttributeError "default_route_table_id"), st)).
Proof.
  split; [vm_compute; reflexivity | split].
  - intros provider name attachment rest [o log]. simpl.
    unfold bind at 1.
    destruct (getattr attachment "subnet_id" (o, log)) as [[sid | e] st1] eqn:E1;
      [| eauto].
    unfold bind at 1, _get_subnet, api, bind at 1, call.
    destruct st1 as [o1 log1]. simpl.
    destruct (provider log1 (Req get_subnet [sid] [])); simpl; eauto.
    eexists; eexists. apply bind_raise. apply getattr_none. reflexivity.
  - intros. reflexivity.
Qed.

(** C7.  In a cloud that deletes at once, the fetch that follows the delete
    request finds the resource absent before [wait_until] is entered, and
    the deletion of a network, of a subnet and of a gateway ends in the
    provider's 404 error; it is a success only when the resource is still
    there at that first fetch and absent at a later one. *)
Theorem delete_of_absent_resource_raises :
  fst (_delete_vcn cloud_gone 5 (VStr "ocid1.vcn.a") (sample_self VNone, [])) =
    Raise (ServiceError 404)
  /\ fst (_delete_subnet cloud_gone 5 (VStr "ocid1.subnet.a")
            (sample_self VNone, [])) = Raise (ServiceError 404)
  /\ fst (_delete_internet_gateway cloud_gone 5 (VStr "ocid1.internetgateway.a")
            (sample_self VNone, [])) = Raise (ServiceError 404)
  /\ _delete_vcn cloud_terminating 5 (VStr "ocid1.vcn.a") (sample_self VNone, []) =
       (Ok tt,
        (sample_self VNone,
         [Req delete_vcn [VStr "ocid1.vcn.a"] [];
          Req get_vcn [VStr "ocid1.vcn.a"] [];
          Req get_vcn [VStr "ocid1.vcn.a"] []])).
Proof.
  repeat split; vm_compute; reflexivity.
Qed.

(** ** What a method leaves unchanged *)

Section Keeps.

Context {V : Type} (view : OCICloud -> V).

Lemma keeps_here {A} (r : Res A) (st : St) :
  view (fst (snd (r, st))) = view (fst st)
  /\ exists new, snd (snd (r, st)) = (snd st ++ new)%list.
Proof. split; [reflexivity | exists []; simpl; rewrite app_nil_r; reflexivity]. Qed.

Lemma keeps_ret {A} (a : A) : keeps view (ret a).
Proof. intros st. apply keeps_here. Qed.

Lemma keeps_raise {A} (e : Exn) : keeps view (@raise A e).
Proof. intros st. apply keeps_here. Qed.

Lemma keeps_bind {A B} (m : M A) (f : A -> M B) :
  keeps view m -> (forall a, keeps view (f a)) -> keeps view (bind m f).
Proof.
  intros Hm Hf st. unfold bind. destruct (Hm st) as [Hv [new Hl]].
  destruct (m st) as [[a | e] st']; simpl in *.
  - destruct (Hf a st') as [Hv' [new' Hl']]. split.
    + rewrite Hv'. exact Hv.
    + exists (new ++ new')%list. rewrite Hl', Hl, app_assoc. reflexivity.
  - split; [exact Hv | exists new; exact Hl].
Qed.

Lemma keeps_try_except {A} (m : M A) (h : Exn -> M A) :
  keeps view m -> (forall e, keeps view (h e)) -> keeps view (try_except m h).
Proof.
  intros Hm Hh st. unfold try_except. destruct (Hm st) as [Hv [new Hl]].
  destruct (m st) as [[a | e] st']; simpl in *.
  - split; [exact Hv | exists new; exact Hl].
  - destruct (Hh e st') as [Hv' [new' Hl']]. split.
    + rewrite Hv'. exact Hv.
    + exists (new ++ new')%list. rewrite Hl', Hl, app_assoc. reflexivity.
Qed.

Lemma keeps_get_self : keeps view get_self.
Proof. intros st. apply keeps_here. Qed.

Lemma keeps_modify_self (f : OCICloud -> OCICloud) :
  (forall o, view (f o) = view o) -> keeps view (modify_self f).
Proof.
  intros H st. split; [apply H | exists []; simpl; rewrite app_nil_r; reflexivity].
Qed.

Lemma keeps_getattr v name : keeps view (getattr v name).
Proof. unfold getattr. destruct (attribute v name); intros st; apply keeps_here. Qed.

Lemma keeps_py_add_str v s : keeps view (py_add_str v s).
Proof. destruct v; intros st; apply keeps_here. Qed.

Lemma keeps_py_iter v : keeps view (py_iter v).
Proof. destruct v; intros st; apply keeps_here. Qed.

Lemma keeps_call provider r : keeps view (call provider r).
Proof.
  intros st. unfold call.
  destruct (provider (snd st) r); (split; [reflexivity | exists [r]; reflexivity]).
Qed.

Lemma keeps_api provider r : keeps view (api provider r).
Proof.
  unfold api. apply keeps_bind; [apply keeps_call | intros; apply keeps_ret].
Qed.

Lemma keeps_b64encode v : keeps view (b64encode v).
Proof. destruct v; intros st; apply keeps_here. Qed.

End Keeps.

(** One step of a proof that a method keeps a view: through the sequencing
    and the branches of the method down to its primitive steps. *)
Ltac keeps_step :=
  match goal with
  | |- keeps _ (bind _ _) => apply keeps_bind; [| intros]
  | |- keeps _ (try_except _ _) => apply keeps_try_except; [| intros]
  | |- keeps _ (ret _) => apply keeps_ret
  | |- keeps _ (raise _) => apply keeps_raise
  | |- keeps _ get_self => apply keeps_get_self
  | |- keeps _ (getattr _ _) => apply keeps_getattr
  | |- keeps _ (py_add_str _ _) => apply keeps_py_add_str
  | |- keeps _ (py_iter _) => apply keeps_py_iter
  | |- keeps _ (call _ _) => apply keeps_call
  | |- keeps _ (api _ _) => apply keeps_api
  | |- keeps _ (b64encode _) => apply keeps_b64encode
  | |- keeps _ (modify_self _) => apply keeps_modify_self; intros; reflexivity
  | |- keeps _ (if ?b then _ else _) => destruct b
  | |- keeps _ (match ?x with _ => _ end) => destruct x
  | |- keeps _ (let '(_, _) := ?x in _) => destruct x
  end.

Create HintDb frame.

Ltac keeps_auto := repeat (keeps_step; eauto with frame).

Section KeepsMethods.

Context {V : Type} (view : OCICloud -> V).
Variable provider : Provider.
Variable OCI_DEFAULT_TYPE : string.
Variable max_polls : nat.

Lemma keeps_refetch response b : keeps view (refetch provider response b).
Proof. unfold refetch. keeps_auto. Qed.

Lemma keeps_wait_until_loop polls :
  forall response property state b,
    keeps view (wait_until_loop provider polls response property state b).
Proof.
  induction polls as [| polls IH]; intros; simpl.
  - keeps_auto.
  - keeps_auto. apply keeps_refetch.
Qed.

Lemma keeps_wait_until response property state b :
  keeps view (wait_until provider max_polls response property state b).
Proof. apply keeps_wait_until_loop. Qed.

Hint Resolve keeps_wait_until : frame.

Lemma keeps_add_route_rule g vcn :
  keeps view (_add_route_rule_to_gateway provider max_polls g vcn).
Proof. unfold _add_route_rule_to_gateway. keeps_auto. Qed.

Hint Resolve keeps_add_route_rule : frame.

Lemma keeps_create_internet_gateway vcn n :
  keeps view (_create_internet_gateway provider max_polls vcn n).
Proof. unfold _create_internet_gateway. keeps_auto. Qed.

Lemma keeps_delete_internet_gateway g :
  keeps view (_delete_internet_gateway provider max_polls g).
Proof. unfold _delete_internet_gateway. keeps_auto. Qed.

Lemma keeps_first_gateway_named n gs :
  keeps view (first_gateway_named n gs).
Proof. induction gs; simpl; keeps_auto. Qed.

Hint Resolve keeps_first_gateway_named : frame.

Lemma keeps_get_gateway v n :
  keeps view (_get_gateway_in_vcn_by_name provider v n).
Proof.
  unfold _get_gateway_in_vcn_by_name, _list_gateways_in_vcn. keeps_auto.
Qed.

Lemma keeps_create_vcn n c : keeps view (_create_vcn provider max_polls n c).
Proof. unfold _create_vcn. keeps_auto. Qed.

Lemma keeps_delete_vcn v : keeps view (_delete_vcn provider max_polls v).
Proof. unfold _delete_vcn. keeps_auto. Qed.

Lemma keeps_create_subnet a v n :
  keeps view (_create_subnet provider max_polls a v n).
Proof. unfold _create_subnet. keeps_auto. Qed.

Lemma keeps_delete_subnet s : keeps view (_delete_subnet provider max_polls s).
Proof. unfold _delete_subnet. keeps_auto. Qed.

Lemma keeps_clear_route_rules v :
  keeps view (_clear_route_rules provider max_polls v).
Proof. unfold _clear_route_rules. keeps_auto. Qed.

Lemma keeps_get_instance : keeps view (_get_instance provider).
Proof. unfold _get_instance. keeps_auto. Qed.

Hint Resolve keeps_get_instance : frame.

Lemma keeps_get_instance_state : keeps view (_get_instance_state provider).
Proof. unfold _get_instance_state. keeps_auto. Qed.

Hint Resolve keeps_get_instance_state : frame.

Lemma keeps_wait_on_instance state t :
  keeps view (_wait_on_instance provider state t).
Proof. induction t; simpl; keeps_auto. Qed.

Hint Resolve keeps_wait_on_instance keeps_create_vcn keeps_create_subnet
  keeps_create_internet_gateway keeps_get_gateway keeps_clear_route_rules
  keeps_delete_internet_gateway keeps_delete_subnet keeps_delete_vcn : frame.

Lemma keeps_find_network_stack name atts :
  keeps view (find_network_stack provider name atts).
Proof. induction atts; simpl; unfold _get_subnet; keeps_auto. Qed.

Hint Resolve keeps_find_network_stack : frame.

Lemma keeps_start_instance : keeps view (_start_instance provider).
Proof. unfold _start_instance. keeps_auto. Qed.

Lemma keeps_stop_instance : keeps view (_stop_instance provider).
Proof. unfold _stop_instance. keeps_auto. Qed.

Lemma keeps_terminate_instance :
  keeps view (_terminate_instance provider max_polls).
Proof.
  unfold _terminate_instance, _get_vnic_attachments. keeps_auto.
Qed.

End KeepsMethods.

#[global] Hint Resolve keeps_wait_until keeps_add_route_rule
  keeps_first_gateway_named keeps_get_instance keeps_get_instance_state
  keeps_wait_on_instance keeps_create_vcn keeps_create_subnet
  keeps_create_internet_gateway keeps_get_gateway keeps_clear_route_rules
  keeps_delete_internet_gateway keeps_delete_subnet keeps_delete_vcn
  keeps_find_network_stack : frame.

Lemma keeps_launch_instance {V} (view : OCICloud -> V) provider ty polls :
  (forall v o, view (set_running_instance_id v o) = view o) ->
  keeps view (_launch_instance provider ty polls).
Proof.
  intros H. unfold _launch_instance.
  repeat first [ apply keeps_modify_self; intros; apply H
               | keeps_step; eauto with frame ].
Qed.

Lemma keeps_first_address {V} (view : OCICloud -> V) provider atts :
  (forall v o, view (set_instance_ip v o) = view o) ->
  keeps view (first_address provider atts).
Proof.
  intros H. induction atts; simpl;
    repeat first [ apply keeps_modify_self; intros; apply H
                 | keeps_step; eauto with frame ].
Qed.

Lemma keeps_set_instance_ip {V} (view : OCICloud -> V) provider :
  (forall v o, view (set_instance_ip v o) = view o) ->
  keeps view (_set_instance_ip provider).
Proof.
  intros H. unfold _set_instance_ip, _get_vnic_attachments.
  repeat first [ apply keeps_modify_self; intros; apply H
               | apply keeps_first_address; exact H
               | keeps_step; eauto with frame ].
Qed.

Lemma keeps_set_image_id {V} (view : OCICloud -> V) provider :
  (forall v o, view (set_image_id v o) = view o) ->
  keeps view (_set_image_id provider).
Proof.
  intros H. unfold _set_image_id.
  repeat first [ apply keeps_modify_self; intros; apply H
               | keeps_step; eauto with frame ].
Qed.

(** C9, as amended.  Launch, start, stop, terminate and address resolution
    leave the Provisioning Context (compartment, availability domain,
    subnet, shape, image, SSH key, timeout) as it was; [_set_image_id]
    leaves all of it but the image identifier. *)
Theorem lifecycle_keeps_the_context :
  forall (provider : Provider) (ty : string) (polls : nat) (st : St),
    provisioning_context (fst (snd (_launch_instance provider ty polls st))) =
      provisioning_context (fst st)
    /\ provisioning_context (fst (snd (_start_instance provider st))) =
         provisioning_context (fst st)
    /\ provisioning_context (fst (snd (_stop_instance provider st))) =
         provisioning_context (fst st)
    /\ provisioning_context (fst (snd (_terminate_instance provider polls st))) =
         provisioning_context (fst st)
    /\ provisioning_context (fst (snd (_set_instance_ip provider st))) =
         provisioning_context (fst st)
    /\ context_but_image (fst (snd (_set_image_id provider st))) =
         context_but_image (fst st).
Proof.
  intros provider ty polls st. repeat split.
  - apply (keeps_launch_instance provisioning_context); reflexivity.
  - apply (keeps_start_instance provisioning_context).
  - apply (keeps_stop_instance provisioning_context).
  - apply (keeps_terminate_instance provisioning_context).
  - apply (keeps_set_instance_ip provisioning_context); reflexivity.
  - apply (keeps_set_image_id context_but_image); reflexivity.
Qed.

(** C9, the claim as stated fails: [_set_image_id], run on an instance whose
    image is not the configured one, replaces the image identifier of the
    Provisioning Context. *)
Lemma set_image_id_changes_the_context :
  provisioning_context
    (fst (snd (_set_image_id cloud_ok (sample_self VNone, [])))) <>
  provisioning_context (sample_self VNone).
Proof. vm_compute. intros H. discriminate H. Qed.

(** ** What a method does not read *)

Section Ignores.

Variable f : OCICloud -> OCICloud.

Lemma ignores_ret {A} (a : A) : ignores f (ret a).
Proof. intros o log. reflexivity. Qed.

Lemma ignores_raise {A} (e : Exn) : ignores f (@raise A e).
Proof. intros o log. reflexivity. Qed.

Lemma ignores_bind {A B} (m : M A) (k : A -> M B) :
  ignores f m -> (forall a, ignores f (k a)) -> ignores f (bind m k).
Proof.
  intros Hm Hk o log. unfold bind. rewrite Hm.
  destruct (m (o, log)) as [[a | e] [o' log']]; simpl.
  - apply Hk.
  - reflexivity.
Qed.

Lemma ignores_try_except {A} (m : M A) (h : Exn -> M A) :
  ignores f m -> (forall e, ignores f (h e)) -> ignores f (try_except m h).
Proof.
  intros Hm Hh o log. unfold try_except. rewrite Hm.
  destruct (m (o, log)) as [[a | e] [o' log']]; simpl.
  - reflexivity.
  - apply Hh.
Qed.

(** A method that reads [self]: what it does with the object must not
    depend on the update. *)
Lemma ignores_self_bind {B} (k : OCICloud -> M B) :
  (forall o, ignores f (k o)) ->
  (forall o st, k (f o) st = k o st) ->
  ignores f (bind get_self k).
Proof.
  intros Hk Heq o log. unfold bind, get_self. simpl.
  rewrite Heq. apply Hk.
Qed.

Lemma ignores_modify_self (g : OCICloud -> OCICloud) :
  (forall o, g (f o) = f (g o)) -> ignores f (modify_self g).
Proof. intros H o log. unfold modify_self. simpl. rewrite H. reflexivity. Qed.

Lemma ignores_getattr v name : ignores f (getattr v name).
Proof. unfold getattr. destruct (attribute v name); intros o log; reflexivity. Qed.

Lemma ignores_py_add_str v s : ignores f (py_add_str v s).
Proof. destruct v; intros o log; reflexivity. Qed.

Lemma ignores_call provider r : ignores f (call provider r).
Proof. intros o log. unfold call. simpl. destruct (provider log r); reflexivity. Qed.

Lemma ignores_api provider r : ignores f (api provider r).
Proof.
  unfold api. apply ignores_bind; [apply ignores_call | intros; apply ignores_ret].
Qed.

Lemma ignores_b64encode v : ignores f (b64encode v).
Proof. destruct v; intros o log; reflexivity. Qed.

End Ignores.

Ltac ignores_step :=
  match goal with
  | |- ignores _ (bind get_self _) =>
      apply ignores_self_bind; [intros | intros; reflexivity]
  | |- ignores _ (bind _ _) => apply ignores_bind; [| intros]
  | |- ignores _ (try_except _ _) => apply ignores_try_except; [| intros]
  | |- ignores _ (ret _) => apply ignores_ret
  | |- ignores _ (raise _) => apply ignores_raise
  | |- ignores _ (getattr _ _) => apply ignores_getattr
  | |- ignores _ (py_add_str _ _) => apply ignores_py_add_str
  | |- ignores _ (call _ _) => apply ignores_call
  | |- ignores _ (api _ _) => apply ignores_api
  | |- ignores _ (b64encode _) => apply ignores_b64encode
  | |- ignores _ (modify_self _) =>
      apply ignores_modify_self; intros; reflexivity
  | |- ignores _ (if ?b then _ else _) => destruct b
  | |- ignores _ (match ?x with _ => _ end) => destruct x
  end.

Ltac ignores_auto := repeat (ignores_step; eauto).

Section LaunchIgnoresSubnet.

Variable provider : Provider.
Variable OCI_DEFAULT_TYPE : string.
Variable max_polls : nat.
Variable s : PyVal.

Lemma subnet_refetch response b :
  ignores (set_subnet_id s) (refetch provider response b).
Proof. unfold refetch. ignores_auto. Qed.

Lemma subnet_wait_until_loop polls :
  forall response property state b,
    ignores (set_subnet_id s)
      (wait_until_loop provider polls response property state b).
Proof.
  induction polls as [| polls IH]; intros; simpl.
  - ignores_auto.
  - ignores_auto. apply subnet_refetch.
Qed.

Lemma subnet_wait_until response property state b :
  ignores (set_subnet_id s)
    (wait_until provider max_polls response property state b).
Proof. apply subnet_wait_until_loop. Qed.

Hint Resolve subnet_wait_until : core.

Lemma subnet_create_vcn n c :
  ignores (set_subnet_id s) (_create_vcn provider max_polls n c).
Proof. unfold _create_vcn. ignores_auto. Qed.

Lemma subnet_create_subnet a v n :
  ignores (set_subnet_id s) (_create_subnet provider max_polls a v n).
Proof. unfold _create_subnet. ignores_auto. Qed.

Lemma subnet_add_route_rule g vcn :
  ignores (set_subnet_id s) (_add_route_rule_to_gateway provider max_polls g vcn).
Proof. unfold _add_route_rule_to_gateway. ignores_auto. Qed.

Hint Resolve subnet_add_route_rule : core.

Lemma subnet_create_internet_gateway vcn n :
  ignores (set_subnet_id s) (_create_internet_gateway provider max_polls vcn n).
Proof. unfold _create_internet_gateway. ignores_auto. Qed.

Lemma subnet_get_instance : ignores (set_subnet_id s) (_get_instance provider).
Proof. unfold _get_instance. ignores_auto. Qed.

Hint Resolve subnet_get_instance : core.

Lemma subnet_get_instance_state :
  ignores (set_subnet_id s) (_get_instance_state provider).
Proof. unfold _get_instance_state. ignores_auto. Qed.

Hint Resolve subnet_get_instance_state : core.

Lemma subnet_wait_on_instance state t :
  ignores (set_subnet_id s) (_wait_on_instance provider state t).
Proof. induction t; simpl; ignores_auto. Qed.

Hint Resolve subnet_wait_on_instance subnet_create_vcn subnet_create_subnet
  subnet_create_internet_gateway : core.

Lemma subnet_launch_instance :
  ignores (set_subnet_id s)
    (_launch_instance provider OCI_DEFAULT_TYPE max_polls).
Proof. unfold _launch_instance. ignores_auto. Qed.

End LaunchIgnoresSubnet.

Lemma bind_assoc {A B C} (m : M A) (f : A -> M B) (g : B -> M C) st :
  bind (bind m f) g st = bind m (fun x => bind (f x) g) st.
Proof. unfold bind. destruct (m st) as [[a | e] st']; reflexivity. Qed.

Lemma bind_get_self {B} (k : OCICloud -> M B) o log :
  bind get_self k (o, log) = k o (o, log).
Proof. reflexivity. Qed.

Lemma bind_ret {A B} (a : A) (k : A -> M B) st : bind (ret a) k st = k a st.
Proof. reflexivity. Qed.

(** C1, as amended.  Launch does not consult the subnet identifier: with any
    subnet identifier in place of the one of [self] it ends in the same
    result after the same requests, and once the instance name is generated
    its first request creates the virtual network '<name>-vnet'. *)
Theorem launch_ignores_the_subnet :
  forall (provider : Provider) (ty : string) (polls : nat) (self : OCICloud)
         (log : list Request) (s : PyVal),
    fst (_launch_instance provider ty polls (set_subnet_id s self, log)) =
      fst (_launch_instance provider ty polls (self, log))
    /\ snd (snd (_launch_instance provider ty polls (set_subnet_id s self, log))) =
         snd (snd (_launch_instance provider ty polls (self, log)))
    /\ (forall name,
          provider log (Req generate_instance_name [VStr "oci-ipa-test"] []) =
            Returns (VStr name) ->
          exists rest,
            snd (snd (_launch_instance provider ty polls (self, log))) =
              (log ++ [Req generate_instance_name [VStr "oci-ipa-test"] [];
                       create_vcn_request name self] ++ rest)%list).
Proof.
  intros provider ty polls self log s.
  split; [| split].
  - rewrite (subnet_launch_instance provider ty polls s self log). reflexivity.
  - rewrite (subnet_launch_instance provider ty polls s self log). reflexivity.
  - intros name Hname. unfold _launch_instance.
    rewrite (bind_ok _ _ _ _ _ (call_returns _ _ _ self _ Hname)).
    unfold _create_vcn. rewrite !bind_assoc, bind_get_self, bind_assoc.
    change (py_add_str (VStr name) "-vnet") with (@ret string (name ++ "-vnet")).
    rewrite bind_ret, bind_assoc. fold (create_vcn_request name self).
    unfold bind at 1.
    match goal with
    | |- context [api provider ?r ?st] =>
        pose proof (keeps_api (fun _ : OCICloud => tt) provider r st) as Hapi;
        destruct (api provider r st) as [[resp | e] st1] eqn:Eapi
    end.
    + match goal with
      | |- exists rest, snd (snd (?m ?st)) = _ =>
          assert (Hk : keeps (fun _ : OCICloud => tt) m)
            by (repeat first [ apply keeps_modify_self; intros; reflexivity
                             | keeps_step; eauto with frame ])
      end.
      destruct (Hk st1) as [_ [new Hnew]]. rewrite Hnew.
      unfold api, bind, call in Eapi. simpl in Eapi.
      destruct (provider _ _) in Eapi; inversion Eapi; subst. simpl.
      exists new. rewrite <- !app_assoc. reflexivity.
    + unfold api, bind, call in Eapi. simpl in Eapi.
      destruct (provider _ _) in Eapi; inversion Eapi; subst. simpl.
      exists []. rewrite <- !app_assoc. reflexivity.
Qed.

Lemma launch_ignores_the_subnet_witness :
  fst (_launch_instance cloud_ok "VM.Standard2.1" 5
         (set_subnet_id (VStr "ocid1.subnet.mine") (sample_self VNone), [])) =
    fst (_launch_instance cloud_ok "VM.Standard2.1" 5 (sample_self VNone, []))
  /\ exists rest,
       snd (snd (_launch_instance cloud_ok "VM.Standard2.1" 5
                   (sample_self VNone, []))) =
         ([] ++ [Req generate_instance_name [VStr "oci-ipa-test"] [];
                 create_vcn_request "oci-ipa-test-x1" (sample_self VNone)]
             ++ rest)%list.
Proof.
  destruct (launch_ignores_the_subnet cloud_ok "VM.Standard2.1" 5
              (sample_self VNone) [] (VStr "ocid1.subnet.mine"))
    as (Hres & _ & Hfirst).
  split; [exact Hres | apply Hfirst; reflexivity].
Defined.

(** C1, the claim as stated fails: launched with a subnet identifier
    supplied, the object still requests the creation of a virtual
    network. *)
Lemma launch_with_subnet_creates_network :
  ~ launch_uses_supplied_subnet cloud_ok "VM.Standard2.1" 5
      (sample_self (VStr "ocid1.subnet.mine")).
Proof.
  intros H. destruct (H eq_refl) as [Hnone _].
  specialize (Hnone (create_vcn_request "oci-ipa-test-x1"
                       (sample_self (VStr "ocid1.subnet.mine")))).
  assert (Hin : In (create_vcn_request "oci-ipa-test-x1"
                      (sample_self (VStr "ocid1.subnet.mine")))
                  (snd (snd (_launch_instance cloud_ok "VM.Standard2.1" 5
                               (sample_self (VStr "ocid1.subnet.mine"), [])))))
    by (vm_compute; right; left; reflexivity).
  specialize (Hnone Hin). discriminate Hnone.
Qed.

(** ** Address resolution *)

Lemma first_address_step provider att rest pub priv o log :
  exposes provider att pub priv ->
  exists log',
    first_address provider (att :: rest) (o, log) =
      if truthy (py_or pub priv)
      then (Ok tt, (set_instance_ip (py_or pub priv) o, log'))
      else first_address provider rest (o, log').
Proof.
  intros (vid & vnic & Hvid & Hvnic & Hpub & Hpriv).
  exists (log ++ [Req get_vnic [vid] []])%list. simpl.
  rewrite (bind_ok _ _ _ _ _ (getattr_some _ _ _ _ Hvid)).
  rewrite (bind_ok _ _ _ _ _ (api_returns _ _ _ o _ (Hvnic log))).
  rewrite (bind_ok _ _ _ vnic _) by reflexivity.
  rewrite (bind_ok _ _ _ _ _ (getattr_some _ _ _ _ Hpub)).
  rewrite (bind_ok _ _ _ _ _ (getattr_some _ _ _ _ Hpriv)).
  destruct (truthy (py_or pub priv)); reflexivity.
Qed.

Lemma py_or_nothing pub priv :
  truthy pub = false -> truthy priv = false -> truthy (py_or pub priv) = false.
Proof. intros H1 H2. unfold py_or. rewrite H1. exact H2. Qed.

Lemma first_address_skip provider pre :
  Forall (exposes_nothing provider) pre ->
  forall rest o log,
    exists log',
      first_address provider (pre ++ rest) (o, log) =
        first_address provider rest (o, log').
Proof.
  induction 1 as [| att pre Hatt _ IH]; intros rest o log.
  - exists log. reflexivity.
  - destruct Hatt as (pub & priv & Hexp & Hpub & Hpriv).
    destruct (first_address_step provider att (pre ++ rest) pub priv o log Hexp)
      as [log1 H1].
    rewrite (py_or_nothing _ _ Hpub Hpriv) in H1.
    destruct (IH rest o log1) as [log2 H2].
    exists log2. simpl app. rewrite H1. exact H2.
Qed.

(** [_set_instance_ip] up to its loop. *)
Lemma _set_instance_ip_loop provider self log atts :
  attachments_of provider self log atts ->
  exists log',
    _set_instance_ip provider (self, log) =
      bind (first_address provider atts)
        (fun _ =>
           self' <- get_self;;
           if negb (truthy (instance_ip self'))
           then raise (OCICloudException
                         "IP address for instance cannot be found.")
           else ret tt)
        (set_instance_ip VNone self, log').
Proof.
  intros (inst & c & i & Hinst & Hc & Hi & Hatts).
  eexists. unfold _set_instance_ip.
  rewrite (bind_ok _ _ _ _ _ (_get_instance_returns _ _ _ _ Hinst)).
  rewrite (bind_ok _ _ _ tt _) by reflexivity.
  rewrite (bind_ok _ _ _ _ _ (getattr_some _ _ _ _ Hc)).
  rewrite (bind_ok _ _ _ _ _ (getattr_some _ _ _ _ Hi)).
  unfold _get_vnic_attachments at 1. rewrite bind_assoc.
  rewrite (bind_ok _ _ _ _ _ (api_returns _ _ _ _ _ Hatts)).
  rewrite (bind_ok _ _ _ (VList atts) _) by reflexivity.
  rewrite (bind_ok _ _ _ atts _) by reflexivity.
  reflexivity.
Qed.

(** The address of the first attachment that has one is the address of the
    instance. *)
Lemma _set_instance_ip_first provider self log pre att post pub priv :
  attachments_of provider self log (pre ++ att :: post) ->
  Forall (exposes_nothing provider) pre ->
  exposes provider att pub priv ->
  truthy (py_or pub priv) = true ->
  fst (_set_instance_ip provider (self, log)) = Ok tt
  /\ instance_ip (fst (snd (_set_instance_ip provider (self, log)))) =
       py_or pub priv.
Proof.
  intros Hatts Hpre Hexp Htrue.
  destruct (_set_instance_ip_loop _ _ _ _ Hatts) as [log1 ->].
  destruct (first_address_skip _ _ Hpre (att :: post)
              (set_instance_ip VNone self) log1) as [log2 H2].
  destruct (first_address_step provider att post pub priv
              (set_instance_ip VNone self) log2 Hexp) as [log3 H3].
  rewrite Htrue in H3. rewrite H3 in H2.
  rewrite (bind_ok _ _ _ _ _ H2).
  unfold bind, get_self. simpl. rewrite Htrue. simpl. split; reflexivity.
Qed.

Lemma _set_instance_ip_none provider self log pre :
  attachments_of provider self log pre ->
  Forall (exposes_nothing provider) pre ->
  fst (_set_instance_ip provider (self, log)) =
    Raise (OCICloudException "IP address for instance cannot be found.").
Proof.
  intros Hatts Hpre.
  destruct (_set_instance_ip_loop _ _ _ _ Hatts) as [log1 ->].
  destruct (first_address_skip _ _ Hpre [] (set_instance_ip VNone self) log1)
    as [log2 H2].
  rewrite app_nil_r in H2. simpl in H2.
  rewrite (bind_ok _ _ _ _ _ H2). reflexivity.
Qed.

(** C4, as amended.  Let [att] be the first attachment that exposes an
    address: the attachments before it expose none.  When [att] has a public
    and a private address, address resolution returns its public address;
    when it has a private address only, its private address; and when no
    attachment of the instance exposes an address, the error 'IP address for
    instance cannot be found.' is raised. *)
Theorem resolve_address_cases :
  forall (provider : Provider) (self : OCICloud) (log : list Request)
         (pre post : list PyVal) (att pub priv : PyVal),
    Forall (exposes_nothing provider) pre ->
    (attachments_of provider self log (pre ++ att :: post) ->
     exposes provider att pub priv ->
     truthy pub = true -> truthy priv = true ->
     fst (_set_instance_ip provider (self, log)) = Ok tt
     /\ instance_ip (fst (snd (_set_instance_ip provider (self, log)))) = pub)
    /\ (attachments_of provider self log (pre ++ att :: post) ->
        exposes provider att pub priv ->
        truthy pub = false -> truthy priv = true ->
        fst (_set_instance_ip provider (self, log)) = Ok tt
        /\ instance_ip (fst (snd (_set_instance_ip provider (self, log)))) = priv)
    /\ (attachments_of provider self log pre ->
        fst (_set_instance_ip provider (self, log)) =
          Raise (OCICloudException "IP address for instance cannot be found.")).
Proof.
  intros provider self log pre post att pub priv Hpre. repeat split.
  - apply (_set_instance_ip_first _ _ _ _ _ _ pub priv H Hpre H0).
    unfold py_or. rewrite H1. exact H1.
  - replace pub with (py_or pub priv) by (unfold py_or; rewrite H1; reflexivity).
    apply (_set_instance_ip_first _ _ _ _ _ _ pub priv H Hpre H0).
    unfold py_or. rewrite H1. exact H1.
  - apply (_set_instance_ip_first _ _ _ _ _ _ pub priv H Hpre H0).
    unfold py_or. rewrite H1. exact H2.
  - replace priv with (py_or pub priv) by (unfold py_or; rewrite H1; reflexivity).
    apply (_set_instance_ip_first _ _ _ _ _ _ pub priv H Hpre H0).
    unfold py_or. rewrite H1. exact H2.
  - intros H. apply (_set_instance_ip_none _ _ _ _ H Hpre).
Qed.

Lemma sample_attachments_of public_ip private_ip :
  attachments_of (cloud_one_nic public_ip private_ip) (sample_self VNone) []
    [sample_attachment "ocid1.vnic.a"].
Proof.
  exists (sample_instance "RUNNING"), (VStr "ocid1.compartment.c"),
    (VStr "ocid1.instance.i").
  repeat split; reflexivity.
Qed.

Lemma sample_exposes public_ip private_ip :
  exposes (cloud_one_nic public_ip private_ip) (sample_attachment "ocid1.vnic.a")
    public_ip private_ip.
Proof.
  exists (VStr "ocid1.vnic.a"), (sample_vnic public_ip private_ip).
  repeat split; reflexivity.
Qed.

Lemma resolve_address_cases_witness :
  instance_ip
    (fst (snd (_set_instance_ip
                 (cloud_one_nic (VStr "203.0.113.7") (VStr "10.0.0.2"))
                 (sample_self VNone, [])))) = VStr "203.0.113.7"
  /\ instance_ip
       (fst (snd (_set_instance_ip (cloud_one_nic VNone (VStr "10.0.0.2"))
                    (sample_self VNone, [])))) = VStr "10.0.0.2"
  /\ fst (_set_instance_ip (cloud_one_nic VNone VNone) (sample_self VNone, [])) =
       Raise (OCICloudException "IP address for instance cannot be found.").
Proof.
  split; [| split].
  - apply (proj1 (resolve_address_cases
                    (cloud_one_nic (VStr "203.0.113.7") (VStr "10.0.0.2"))
                    (sample_self VNone) [] [] []
                    (sample_attachment "ocid1.vnic.a")
                    (VStr "203.0.113.7") (VStr "10.0.0.2") (Forall_nil _))).
    + apply sample_attachments_of.
    + apply sample_exposes.
    + reflexivity.
    + reflexivity.
  - apply (proj1 (proj2 (resolve_address_cases
                    (cloud_one_nic VNone (VStr "10.0.0.2"))
                    (sample_self VNone) [] [] []
                    (sample_attachment "ocid1.vnic.a")
                    VNone (VStr "10.0.0.2") (Forall_nil _)))).
    + apply sample_attachments_of.
    + apply sample_exposes.
    + reflexivity.
    + reflexivity.
  - apply (proj2 (proj2 (resolve_address_cases
                    (cloud_one_nic VNone VNone)
                    (sample_self VNone) [] [sample_attachment "ocid1.vnic.a"] []
                    VNone VNone VNone
                    (Forall_cons _
                       (ex_intro _ VNone
                          (ex_intro _ VNone
                             (conj (sample_exposes VNone VNone)
                                (conj eq_refl eq_refl))))
                       (Forall_nil _))))).
    apply sample_attachments_of.
Defined.

(** C5, as amended.  Address resolution stops at the first attachment that
    exposes an address, whatever the attachments after it expose: it returns
    the public address of that attachment when it has one and its private
    address otherwise. *)
Theorem resolve_address_stops_at_first :
  forall (provider : Provider) (self : OCICloud) (log : list Request)
         (pre post : list PyVal) (att pub priv : PyVal),
    attachments_of provider self log (pre ++ att :: post) ->
    Forall (exposes_nothing provider) pre ->
    exposes provider att pub priv ->
    truthy (py_or pub priv) = true ->
    fst (_set_instance_ip provider (self, log)) = Ok tt
    /\ instance_ip (fst (snd (_set_instance_ip provider (self, log)))) =
         (if truthy pub then pub else priv).
Proof.
  intros provider self log pre post att pub priv Hatts Hpre Hexp Htrue.
  exact (_set_instance_ip_first _ _ _ _ _ _ _ _ Hatts Hpre Hexp Htrue).
Qed.

Lemma two_nics_attachments_of :
  attachments_of cloud_two_nics (sample_self VNone) []
    ([] ++ sample_attachment "ocid1.vnic.a" :: [sample_attachment "ocid1.vnic.b"]).
Proof.
  exists (sample_instance "RUNNING"), (VStr "ocid1.compartment.c"),
    (VStr "ocid1.instance.i").
  repeat split; reflexivity.
Qed.

Lemma two_nics_first_exposes :
  exposes cloud_two_nics (sample_attachment "ocid1.vnic.a")
    VNone (VStr "10.0.0.2").
Proof.
  exists (VStr "ocid1.vnic.a"), (sample_vnic VNone (VStr "10.0.0.2")).
  repeat split; reflexivity.
Qed.

Lemma resolve_address_stops_at_first_witness :
  fst (_set_instance_ip cloud_two_nics (sample_self VNone, [])) = Ok tt
  /\ instance_ip (fst (snd (_set_instance_ip cloud_two_nics (sample_self VNone, [])))) =
       VStr "10.0.0.2".
Proof.
  apply (resolve_address_stops_at_first cloud_two_nics (sample_self VNone) []
           [] [sample_attachment "ocid1.vnic.b"]
           (sample_attachment "ocid1.vnic.a") VNone (VStr "10.0.0.2")).
  - apply two_nics_attachments_of.
  - apply Forall_nil.
  - apply two_nics_first_exposes.
  - reflexivity.
Defined.

(** C4, the claim as stated fails: the second attachment has a public and a
    private address, and the address resolved is not its public address but
    the private address of the first attachment. *)
Lemma attachment_with_both_is_passed_over :
  ~ returns_public_of_attachment_with_both cloud_two_nics (sample_self VNone)
      [sample_attachment "ocid1.vnic.a"; sample_attachment "ocid1.vnic.b"].
Proof.
  intros H.
  specialize (H (sample_attachment "ocid1.vnic.b") (VStr "203.0.113.7")
                (VStr "10.0.0.3")).
  assert (Hexp : exposes cloud_two_nics (sample_attachment "ocid1.vnic.b")
                   (VStr "203.0.113.7") (VStr "10.0.0.3")).
  { exists (VStr "ocid1.vnic.b"),
      (sample_vnic (VStr "203.0.113.7") (VStr "10.0.0.3")).
    repeat split; reflexivity. }
  specialize (H (or_intror (or_introl eq_refl)) Hexp eq_refl eq_refl).
  vm_compute in H. discriminate H.
Qed.

(** C5, the claim as stated fails: the second attachment exposes a public
    address, and the address resolved is the private address of the
    first. *)
Lemma private_address_before_public :
  ~ returns_a_public_address cloud_two_nics (sample_self VNone)
      [sample_attachment "ocid1.vnic.a"; sample_attachment "ocid1.vnic.b"].
Proof.
  intros H.
  destruct H as (att & pub & priv & Hin & Hexp & Htrue & Hip).
  - exists (sample_attachment "ocid1.vnic.b"), (VStr "203.0.113.7"),
      (VStr "10.0.0.3").
    split; [right; left; reflexivity | split; [| reflexivity]].
    exists (VStr "ocid1.vnic.b"),
      (sample_vnic (VStr "203.0.113.7") (VStr "10.0.0.3")).
    repeat split; reflexivity.
  - vm_compute in Hip. subst pub.
    destruct Hexp as (vid & vnic & Hvid & Hvnic & Hpub & _).
    specialize (Hvnic []).
    destruct Hin as [<- | [<- | []]];
      vm_compute in Hvid; inversion Hvid; subst vid;
      vm_compute in Hvnic; inversion Hvnic; subst vnic;
      vm_compute in Hpub; discriminate Hpub.
Qed.

(** ** Start and stop *)

Lemma _get_instance_state_returns provider self log inst cur :
  provider log (get_instance_request self) = Returns inst ->
  attribute inst "lifecycle_state" = Some cur ->
  _get_instance_state provider (self, log) =
    (Ok cur, (self, (log ++ [get_instance_request self])%list)).
Proof.
  intros Hinst Hcur. unfold _get_instance_state.
  rewrite (bind_ok _ _ _ _ _ (_get_instance_returns _ _ _ _ Hinst)).
  rewrite bind_get_self. unfold try_except.
  rewrite (getattr_some _ _ _ _ Hcur). reflexivity.
Qed.

Lemma _get_instance_state_stateless provider self log inst :
  provider log (get_instance_request self) = Returns inst ->
  attribute inst "lifecycle_state" = None ->
  exists e,
    _get_instance_state provider (self, log) =
      (Raise e, (self, (log ++ [get_instance_request self])%list)).
Proof.
  intros Hinst Hcur. eexists. unfold _get_instance_state.
  rewrite (bind_ok _ _ _ _ _ (_get_instance_returns _ _ _ _ Hinst)).
  rewrite bind_get_self. unfold try_except.
  rewrite (getattr_none _ _ _ Hcur). reflexivity.
Qed.

Lemma _get_instance_state_raises provider self log e :
  provider log (get_instance_request self) = Raises e ->
  _get_instance_state provider (self, log) =
    (Raise (instance_not_found self),
     (self, (log ++ [get_instance_request self])%list)).
Proof.
  intros He. unfold _get_instance_state.
  rewrite (bind_raise _ _ _ _ _ (_get_instance_raises _ _ _ _ He)).
  reflexivity.
Qed.

Lemma py_eq_str_true v s : py_eq_str v s = true -> v = VStr s.
Proof.
  destruct v; simpl; try discriminate.
  intros H. apply String.eqb_eq in H. subst. reflexivity.
Qed.

(** A wait that returns has seen the instance in the expected state at its
    last poll. *)
Lemma _wait_on_instance_reached provider state self t :
  forall log st',
    _wait_on_instance provider state t (self, log) = (Ok tt, st') ->
    fst st' = self
    /\ exists log0 inst,
         snd st' = (log0 ++ [get_instance_request self])%list
         /\ provider log0 (get_instance_request self) = Returns inst
         /\ attribute inst "lifecycle_state" = Some (VStr state).
Proof.
  induction t as [| t IH]; intros log st' H; simpl in H.
  - discriminate H.
  - destruct (provider log (get_instance_request self)) as [inst | e] eqn:Hp.
    + destruct (attribute inst "lifecycle_state") as [cur |] eqn:Hcur.
      * rewrite (bind_ok _ _ _ _ _
                   (_get_instance_state_returns _ _ _ _ _ Hp Hcur)) in H.
        destruct (py_eq_str cur state) eqn:Heq.
        -- inversion H; subst. split; [reflexivity |].
           exists log, inst. apply py_eq_str_true in Heq. subst cur. auto.
        -- apply (IH _ _ H).
      * destruct (_get_instance_state_stateless _ _ _ _ Hp Hcur) as [e He].
        rewrite (bind_raise _ _ _ _ _ He) in H. discriminate H.
    + rewrite (bind_raise _ _ _ _ _ (_get_instance_state_raises _ _ _ _ Hp)) in H.
      discriminate H.
Qed.

(** A wait during which the instance is always seen in another state polls
    as often as the timeout allows and then raises. *)
Lemma _wait_on_instance_timeout provider state self :
  (forall log, exists inst cur,
      provider log (get_instance_request self) = Returns inst
      /\ attribute inst "lifecycle_state" = Some cur
      /\ py_eq_str cur state = false) ->
  forall t log,
    _wait_on_instance provider state t (self, log) =
      (Raise (not_arrived state),
       (self, (log ++ repeat (get_instance_request self) t)%list)).
Proof.
  intros Hp. induction t as [| t IH]; intros log.
  - simpl. rewrite app_nil_r. reflexivity.
  - destruct (Hp log) as (inst & cur & Hinst & Hcur & Hne).
    simpl _wait_on_instance.
    rewrite (bind_ok _ _ _ _ _
               (_get_instance_state_returns _ _ _ _ _ Hinst Hcur)).
    rewrite Hne, IH. simpl repeat.
    rewrite <- app_assoc. reflexivity.
Qed.

(** Start and stop on an instance object without the method
    [instance_action]: the lookup of the instance is all they do. *)
Lemma _start_stop_without_method provider self log inst :
  provider log (get_instance_request self) = Returns inst ->
  attribute inst "instance_action" = None ->
  _start_instance provider (self, log) =
    (Raise (AttributeError "instance_action"),
     (self, (log ++ [get_instance_request self])%list))
  /\ _stop_instance provider (self, log) =
       (Raise (AttributeError "instance_action"),
        (self, (log ++ [get_instance_request self])%list)).
Proof.
  intros Hinst Hnone. split.
  - unfold _start_instance.
    rewrite (bind_ok _ _ _ _ _ (_get_instance_returns _ _ _ _ Hinst)).
    rewrite (bind_raise _ _ _ _ _ (getattr_none _ _ _ Hnone)). reflexivity.
  - unfold _stop_instance.
    rewrite (bind_ok _ _ _ _ _ (_get_instance_returns _ _ _ _ Hinst)).
    rewrite (bind_raise _ _ _ _ _ (getattr_none _ _ _ Hnone)). reflexivity.
Qed.

(** C6.  Start and stop of an instance the provider knows, running or
    stopped: the instance is looked up, and the call of [instance_action] on
    the model that [get_instance(...).data] is, which has no such method,
    raises [AttributeError]: no lifecycle action is issued and the state of
    the instance is never waited for.  Only the failure of the lookup ends
    as the claim says, in the error 'Instance with ID: <id> not found.'. *)
Theorem start_stop_issue_no_action :
  _start_instance cloud_stopped (sample_self VNone, []) =
    (Raise (AttributeError "instance_action"),
     (sample_self VNone, [get_instance_request (sample_self VNone)]))
  /\ _stop_instance cloud_ok (sample_self VNone, []) =
       (Raise (AttributeError "instance_action"),
        (sample_self VNone, [get_instance_request (sample_self VNone)]))
  /\ _start_instance (cloud_missing (ServiceError 404)) (sample_self VNone, []) =
       (Raise (OCICloudException
                 "Instance with ID: ocid1.instance.i not found."),
        (sample_self VNone, [get_instance_request (sample_self VNone)]))
  /\ _stop_instance (cloud_missing (ServiceError 404)) (sample_self VNone, []) =
       (Raise (OCICloudException
                 "Instance with ID: ocid1.instance.i not found."),
        (sample_self VNone, [get_instance_request (sample_self VNone)])).
Proof.
  split; [| split; [| split]].
  - apply (proj1 (_start_stop_without_method cloud_stopped (sample_self VNone)
                    [] (sample_instance "STOPPED") eq_refl eq_refl)).
  - apply (proj2 (_start_stop_without_method cloud_ok (sample_self VNone)
                    [] (sample_instance "RUNNING") eq_refl eq_refl)).
  - unfold _start_instance.
    rewrite (bind_raise _ _ _ _ _
               (_get_instance_raises (cloud_missing (ServiceError 404))
                  (sample_self VNone) [] (ServiceError 404) eq_refl)).
    reflexivity.
  - unfold _stop_instance.
    rewrite (bind_raise _ _ _ _ _
               (_get_instance_raises (cloud_missing (ServiceError 404))
                  (sample_self VNone) [] (ServiceError 404) eq_refl)).
    reflexivity.
Qed.

(** ** Construction *)


(** The constructor up to its two checks. *)
Lemma OCICloud__init__checks provider user self log ad_arg c_arg s_arg :
  OCICloud__init__ provider user ad_arg c_arg s_arg (self, log) =
    let ad := py_or ad_arg (config_value (ipa_config self) "availability_domain") in
    let c := py_or c_arg (config_value (ipa_config self) "compartment_id") in
    let s := py_or s_arg (config_value (ipa_config self) "subnet_id") in
    if negb (truthy ad)
    then (Raise (OCICloudException
                   "Availability domain is required to connect to OCI."),
          (set_availability_domain ad self, log))
    else
      if negb (truthy (ssh_private_key_file self))
      then (Raise (OCICloudException
                     "SSH private key file is required to connect to instance."),
            (set_subnet_id s
               (set_compartment_id c
                  (set_ssh_user (py_or (ssh_user self) (VStr user))
                     (set_availability_domain ad self))), log))
      else
        (config <- _get_config provider (cloud_config self) VNone;;
         call provider (Req ComputeClient [config] []);;;
         call provider (Req VirtualNetworkClient [config] []);;;
         ret tt)
          (set_subnet_id s
             (set_compartment_id c
                (set_ssh_user (py_or (ssh_user self) (VStr user))
                   (set_availability_domain ad self))), log).
Proof.
  unfold OCICloud__init__. rewrite bind_get_self. cbv zeta.
  rewrite (bind_ok _ _ _ tt
             (set_availability_domain
                (py_or ad_arg
                   (config_value (ipa_config self) "availability_domain"))
                self, log)) by reflexivity.
  destruct (truthy (py_or ad_arg
                      (config_value (ipa_config self) "availability_domain")));
    [| reflexivity].
  cbn [negb].
  repeat (rewrite (bind_ok _ _ _ tt (_, log)) by reflexivity).
  destruct (truthy (ssh_private_key_file self)); reflexivity.
Qed.

(** The first two requests of a launch, once the name is generated. *)
Lemma _launch_instance_first_requests provider ty polls self log name :
  provider log (Req generate_instance_name [VStr "oci-ipa-test"] []) =
    Returns (VStr name) ->
  exists rest,
    snd (snd (_launch_instance provider ty polls (self, log))) =
      (log ++ [Req generate_instance_name [VStr "oci-ipa-test"] [];
               create_vcn_request name self] ++ rest)%list.
Proof.
  intros Hname. unfold _launch_instance.
  rewrite (bind_ok _ _ _ _ _ (call_returns _ _ _ self _ Hname)).
  unfold _create_vcn. rewrite !bind_assoc, bind_get_self, bind_assoc.
  change (py_add_str (VStr name) "-vnet") with (@ret string (name ++ "-vnet")).
  rewrite bind_ret, bind_assoc. fold (create_vcn_request name self).
  unfold bind at 1.
  match goal with
  | |- context [api provider ?r ?st] =>
      destruct (api provider r st) as [[resp | e] st1] eqn:Eapi
  end.
  - match goal with
    | |- exists rest, snd (snd (?m ?st)) = _ =>
        assert (Hk : keeps (fun _ : OCICloud => tt) m)
          by (repeat first [ apply keeps_modify_self; intros; reflexivity
                           | keeps_step; eauto with frame ])
    end.
    destruct (Hk st1) as [_ [new Hnew]]. rewrite Hnew.
    unfold api, bind, call in Eapi. simpl in Eapi.
    destruct (provider _ _) in Eapi; inversion Eapi; subst. simpl.
    exists new. rewrite <- !app_assoc. reflexivity.
  - unfold api, bind, call in Eapi. simpl in Eapi.
    destruct (provider _ _) in Eapi; inversion Eapi; subst. simpl.
    exists []. rewrite <- !app_assoc. reflexivity.
Qed.

(** C8, as amended.  Construction raises the provisioning error when the
    availability domain is absent (no argument, and no value in the
    configuration), and, the availability domain being there, when the SSH
    key path is absent.  The compartment and the subnet are checked nowhere:
    with an availability domain and an SSH key path, construction stores
    what the two resolve to, [None] included, and goes on to build the SDK
    clients, whose outcome is then its own; and launch sends the compartment
    of [self] as it is with its first request to the provider. *)
Theorem construction_checks_domain_and_key :
  forall (provider : Provider) (user : string) (self : OCICloud)
         (log : list Request) (ad_arg c_arg s_arg : PyVal),
    (truthy (py_or ad_arg
               (config_value (ipa_config self) "availability_domain")) = false ->
     fst (OCICloud__init__ provider user ad_arg c_arg s_arg (self, log)) =
       Raise (OCICloudException
                "Availability domain is required to connect to OCI."))
    /\ (truthy (py_or ad_arg
                  (config_value (ipa_config self) "availability_domain")) = true ->
        truthy (ssh_private_key_file self) = false ->
        fst (OCICloud__init__ provider user ad_arg c_arg s_arg (self, log)) =
          Raise (OCICloudException
                   "SSH private key file is required to connect to instance."))
    /\ (truthy (py_or ad_arg
                  (config_value (ipa_config self) "availability_domain")) = true ->
        truthy (ssh_private_key_file self) = true ->
        OCICloud__init__ provider user ad_arg c_arg s_arg (self, log) =
          (config <- _get_config provider (cloud_config self) VNone;;
           call provider (Req ComputeClient [config] []);;;
           call provider (Req VirtualNetworkClient [config] []);;;
           ret tt)
            (set_subnet_id
               (py_or s_arg (config_value (ipa_config self) "subnet_id"))
               (set_compartment_id
                  (py_or c_arg (config_value (ipa_config self) "compartment_id"))
                  (set_ssh_user (py_or (ssh_user self) (VStr user))
                     (set_availability_domain
                        (py_or ad_arg
                           (config_value (ipa_config self)
                              "availability_domain")) self))), log))
    /\ (forall (ty : string) (polls : nat) (name : string),
          provider log (Req generate_instance_name [VStr "oci-ipa-test"] []) =
            Returns (VStr name) ->
          exists rest,
            snd (snd (_launch_instance provider ty polls (self, log))) =
              (log ++ [Req generate_instance_name [VStr "oci-ipa-test"] [];
                       create_vcn_request name self] ++ rest)%list).
Proof.
  intros provider user self log ad_arg c_arg s_arg.
  rewrite OCICloud__init__checks. cbv zeta.
  split; [| split; [| split]].
  - intros Hf. rewrite Hf. reflexivity.
  - intros Ht Hk. rewrite Ht, Hk. reflexivity.
  - intros Ht Hk. rewrite Ht, Hk. reflexivity.
  - intros ty polls name Hname.
    exact (_launch_instance_first_requests _ _ _ _ _ _ Hname).
Qed.

Lemma construction_checks_domain_and_key_witness :
  fst (OCICloud__init__ cloud_ok "opc" VNone VNone VNone
         (sample_base (VStr "/home/tux/.ssh/id_rsa") [], [])) =
    Raise (OCICloudException
             "Availability domain is required to connect to OCI.")
  /\ fst (OCICloud__init__ cloud_ok "opc" VNone VNone VNone
            (sample_base VNone sample_config, [])) =
       Raise (OCICloudException
                "SSH private key file is required to connect to instance.")
  /\ compartment_id
       (fst (snd (OCICloud__init__ cloud_strict_config "opc" VNone VNone VNone
                    (sample_base (VStr "/home/tux/.ssh/id_rsa")
                       [("availability_domain", VStr "Uocm:PHX-AD-1")], [])))) =
       VNone
  /\ exists rest,
       snd (snd (_launch_instance cloud_ok "VM.Standard2.1" 5
                   (set_compartment_id VNone (sample_self VNone), []))) =
         ([] ++ [Req generate_instance_name [VStr "oci-ipa-test"] [];
                 create_vcn_request "oci-ipa-test-x1"
                   (set_compartment_id VNone (sample_self VNone))] ++ rest)%list.
Proof.
  split; [| split; [| split]].
  - apply (proj1 (construction_checks_domain_and_key cloud_ok "opc"
                    (sample_base (VStr "/home/tux/.ssh/id_rsa") []) []
                    VNone VNone VNone)).
    reflexivity.
  - apply (proj1 (proj2 (construction_checks_domain_and_key cloud_ok "opc"
                           (sample_base VNone sample_config) []
                           VNone VNone VNone))); reflexivity.
  - rewrite (proj1 (proj2 (proj2 (construction_checks_domain_and_key
                                    cloud_strict_config "opc"
                                    (sample_base (VStr "/home/tux/.ssh/id_rsa")
                                       [("availability_domain",
                                         VStr "Uocm:PHX-AD-1")])
                                    [] VNone VNone VNone)))
               eq_refl eq_refl).
    reflexivity.
  - apply (proj2 (proj2 (proj2 (construction_checks_domain_and_key cloud_ok "opc"
                                  (set_compartment_id VNone (sample_self VNone))
                                  [] VNone VNone VNone)))
             "VM.Standard2.1" 5 "oci-ipa-test-x1").
    reflexivity.
Defined.

(** C8, the claim as stated fails: with an availability domain and an SSH
    key path, and neither a compartment nor a subnet as argument or in the
    configuration, the constructor raises no provisioning error: it passes
    its checks and ends in the error of the SDK, which is handed a dict
    where it reads the location of its configuration file. *)
Lemma construction_without_compartment_and_subnet :
  ~ construction_requires_all cloud_strict_config "opc"
      (sample_base (VStr "/home/tux/.ssh/id_rsa")
         [("availability_domain", VStr "Uocm:PHX-AD-1")])
      VNone VNone VNone.
Proof.
  intros H. destruct H as [msg Hmsg].
  - right; left. split; [reflexivity |].
    intros v Hv. vm_compute in Hv. discriminate Hv.
  - vm_compute in Hmsg. discriminate Hmsg.
Qed.

(** ** The requests of a wait *)

Lemma refetch_returns provider req d b o log v :
  provider log req = Returns v ->
  refetch provider (VResponse req d) b (o, log) =
    (Ok (Some (VResponse req v)), (o, (log ++ [req])%list)).
Proof.
  intros H. unfold refetch, try_except.
  rewrite (bind_ok _ _ _ _ _ (api_returns _ _ _ o _ H)). reflexivity.
Qed.

Lemma refetch_raises provider req d b o log e :
  provider log req = Raises e ->
  refetch provider (VResponse req d) b (o, log) =
    (if (not_found e && b)%bool then Ok None else Raise e,
     (o, (log ++ [req])%list)).
Proof.
  intros H. unfold refetch, try_except.
  rewrite (bind_raise _ _ _ _ _ (api_raises _ _ _ o _ H)).
  destruct (not_found e && b)%bool; reflexivity.
Qed.

(** A wait on a response re-issues the request of that response, and no
    other, at most as often as it may poll; [self] is left as it is. *)
Lemma wait_until_loop_log provider polls :
  forall req d property state b o log,
    exists n,
      n <= polls
      /\ snd (wait_until_loop provider polls (VResponse req d) property state b
                (o, log)) = (o, (log ++ repeat req n)%list).
Proof.
  induction polls as [| polls IH]; intros req d property state b o log.
  - exists 0. split; [lia |]. simpl repeat. rewrite app_nil_r.
    simpl. rewrite (bind_ok _ _ _ d (o, log)) by reflexivity.
    unfold bind, getattr.
    destruct (attribute d property) as [v |]; [| reflexivity].
    simpl. destruct (py_eq_str v state); reflexivity.
  - simpl wait_until_loop.
    rewrite (bind_ok _ _ _ d (o, log)) by reflexivity.
    destruct (attribute d property) as [v |] eqn:Hv.
    + rewrite (bind_ok _ _ _ _ _ (getattr_some _ _ _ _ Hv)).
      destruct (py_eq_str v state).
      * exists 0. split; [lia |]. simpl. rewrite app_nil_r. reflexivity.
      * destruct (provider log req) as [v' | e] eqn:Hp.
        -- rewrite (bind_ok _ _ _ _ _ (refetch_returns provider req d b o log v' Hp)).
           destruct (IH req v' property state b o (log ++ [req])%list)
             as (n & Hn & Hlog).
           exists (S n). split; [lia |]. rewrite Hlog. simpl repeat.
           rewrite <- app_assoc. reflexivity.
        -- exists 1. split; [lia |].
           pose proof (refetch_raises provider req d b o log e Hp) as Hr.
           destruct (not_found e && b)%bool.
           ++ rewrite (bind_ok _ _ _ _ _ Hr). reflexivity.
           ++ rewrite (bind_raise _ _ _ _ _ Hr). reflexivity.
    + exists 0. split; [lia |]. simpl repeat. rewrite app_nil_r.
      rewrite (bind_raise _ _ _ _ _ (getattr_none _ _ _ Hv)). reflexivity.
Qed.

(** A wait on a value that is no response issues no request. *)
Lemma wait_until_loop_no_response provider polls response property state b st :
  (forall req d, response <> VResponse req d) ->
  snd (wait_until_loop provider polls response property state b st) = st.
Proof.
  intros Hno.
  assert (Hre : refetch provider response b st =
                (Raise (AttributeError "request"), st)).
  { destruct response; try reflexivity. exfalso. eapply Hno. reflexivity. }
  destruct polls; simpl; unfold bind, getattr;
    destruct (attribute response "data") as [d |]; try reflexivity;
    simpl; destruct (attribute d property) as [v |]; try reflexivity;
    simpl; destruct (py_eq_str v state); try reflexivity.
  rewrite Hre. reflexivity.
Qed.

(** ** The requests a method may issue *)

Section IssuesOnly.

Variable allowed : ApiOp -> bool.

Lemma issues_here {A} (r : Res A) (st : St) :
  exists new,
    snd (snd (r, st)) = (snd st ++ new)%list
    /\ forallb (fun q => allowed (req_op q)) new = true.
Proof. exists []. simpl. rewrite app_nil_r. split; reflexivity. Qed.

Lemma issues_ret {A} (a : A) : issues_only allowed (ret a).
Proof. intros st. apply issues_here. Qed.

Lemma issues_raise {A} (e : Exn) : issues_only allowed (@raise A e).
Proof. intros st. apply issues_here. Qed.

Lemma issues_bind {A B} (m : M A) (f : A -> M B) :
  issues_only allowed m -> (forall a, issues_only allowed (f a)) ->
  issues_only allowed (bind m f).
Proof.
  intros Hm Hf st. unfold bind. destruct (Hm st) as (new & Hl & Hall).
  destruct (m st) as [[a | e] st']; simpl in *.
  - destruct (Hf a st') as (new' & Hl' & Hall').
    exists (new ++ new')%list. rewrite Hl', Hl, app_assoc, forallb_app, Hall, Hall'.
    split; reflexivity.
  - exists new. split; assumption.
Qed.

Lemma issues_try_except {A} (m : M A) (h : Exn -> M A) :
  issues_only allowed m -> (forall e, issues_only allowed (h e)) ->
  issues_only allowed (try_except m h).
Proof.
  intros Hm Hh st. unfold try_except. destruct (Hm st) as (new & Hl & Hall).
  destruct (m st) as [[a | e] st']; simpl in *.
  - exists new. split; assumption.
  - destruct (Hh e st') as (new' & Hl' & Hall').
    exists (new ++ new')%list. rewrite Hl', Hl, app_assoc, forallb_app, Hall, Hall'.
    split; reflexivity.
Qed.

Lemma issues_get_self : issues_only allowed get_self.
Proof. intros st. apply issues_here. Qed.

Lemma issues_modify_self f : issues_only allowed (modify_self f).
Proof. intros st. exists []. simpl. rewrite app_nil_r. split; reflexivity. Qed.

Lemma issues_getattr v name : issues_only allowed (getattr v name).
Proof. unfold getattr. destruct (attribute v name); intros st; apply issues_here. Qed.

Lemma issues_py_add_str v s : issues_only allowed (py_add_str v s).
Proof. destruct v; intros st; apply issues_here. Qed.

Lemma issues_py_iter v : issues_only allowed (py_iter v).
Proof. destruct v; intros st; apply issues_here. Qed.

Lemma issues_b64encode v : issues_only allowed (b64encode v).
Proof. destruct v; intros st; apply issues_here. Qed.

Lemma issues_call provider r :
  allowed (req_op r) = true -> issues_only allowed (call provider r).
Proof.
  intros H st. exists [r]. unfold call.
  destruct (provider (snd st) r); simpl; rewrite H; split; reflexivity.
Qed.

Lemma issues_api provider r :
  allowed (req_op r) = true -> issues_only allowed (api provider r).
Proof.
  intros H. unfold api.
  apply issues_bind; [apply issues_call; exact H | intros; apply issues_ret].
Qed.

Lemma forallb_repeat (r : Request) n :
  allowed (req_op r) = true ->
  forallb (fun q => allowed (req_op q)) (repeat r n) = true.
Proof. intros H. induction n; simpl; [reflexivity | rewrite H; exact IHn]. Qed.

(** A fetch followed by the wait on its response. *)
Lemma issues_api_wait {B} provider polls r property state b (k : PyVal -> M B) :
  allowed (req_op r) = true ->
  (forall w, issues_only allowed (k w)) ->
  issues_only allowed
    (bind (api provider r)
       (fun g => bind (wait_until provider polls g property state b) k)).
Proof.
  intros H Hk [o log]. simpl snd at 2.
  destruct (provider log r) as [v | e] eqn:Hp.
  - rewrite (bind_ok _ _ _ _ _ (api_returns _ _ _ o _ Hp)).
    unfold bind, wait_until.
    destruct (wait_until_loop_log provider polls r v property state b o
                (log ++ [r])%list) as (n & _ & Hlog).
    destruct (wait_until_loop provider polls (VResponse r v) property state b
                (o, (log ++ [r])%list)) as [[w | e] st2]; simpl in Hlog; subst st2.
    + destruct (Hk w (o, ((log ++ [r]) ++ repeat r n)%list)) as (new & Hl & Hall).
      exists ([r] ++ repeat r n ++ new)%list. split.
      * rewrite Hl. simpl. rewrite <- !app_assoc. reflexivity.
      * simpl. rewrite H, forallb_app, Hall, (forallb_repeat r n H). reflexivity.
    + exists ([r] ++ repeat r n)%list. split.
      * simpl. rewrite <- app_assoc. reflexivity.
      * simpl. rewrite H, (forallb_repeat r n H). reflexivity.
  - rewrite (bind_raise _ _ _ _ _ (api_raises _ _ _ o _ Hp)).
    exists [r]. simpl. rewrite H. split; reflexivity.
Qed.

End IssuesOnly.

Ltac issues_step :=
  match goal with
  | |- issues_only _ (bind _ _) =>
      first [ apply issues_api_wait; [assumption | intros]
            | apply issues_bind; [| intros] ]
  | |- issues_only _ (try_except _ _) => apply issues_try_except; [| intros]
  | |- issues_only _ (ret _) => apply issues_ret
  | |- issues_only _ (raise _) => apply issues_raise
  | |- issues_only _ get_self => apply issues_get_self
  | |- issues_only _ (modify_self _) => apply issues_modify_self
  | |- issues_only _ (getattr _ _) => apply issues_getattr
  | |- issues_only _ (py_add_str _ _) => apply issues_py_add_str
  | |- issues_only _ (py_iter _) => apply issues_py_iter
  | |- issues_only _ (b64encode _) => apply issues_b64encode
  | |- issues_only _ (call _ _) => apply issues_call; assumption
  | |- issues_only _ (api _ _) => apply issues_api; assumption
  | |- issues_only _ (if ?b then _ else _) => destruct b
  | |- issues_only _ (match ?x with _ => _ end) => destruct x
  end.

Ltac issues_auto := repeat (issues_step; eauto).

Section IssuesMethods.

Variable allowed : ApiOp -> bool.
Variable provider : Provider.
Variable max_polls : nat.

Lemma issues_get_instance :
  allowed get_instance = true -> issues_only allowed (_get_instance provider).
Proof. intros H. unfold _get_instance. issues_auto. Qed.

Lemma issues_get_instance_state :
  allowed get_instance = true ->
  issues_only allowed (_get_instance_state provider).
Proof.
  intros H. unfold _get_instance_state.
  apply issues_bind; [apply issues_get_instance; exact H | intros].
  issues_auto.
Qed.

Lemma issues_wait_on_instance state t :
  allowed get_instance = true ->
  issues_only allowed (_wait_on_instance provider state t).
Proof.
  intros H. induction t; simpl.
  - issues_auto.
  - apply issues_bind; [apply issues_get_instance_state; exact H | intros].
    issues_auto.
Qed.

Lemma issues_first_address atts :
  allowed get_vnic = true -> issues_only allowed (first_address provider atts).
Proof. intros H. induction atts; simpl; issues_auto. Qed.

Lemma issues_set_instance_ip :
  allowed get_instance = true -> allowed list_vnic_attachments = true ->
  allowed get_vnic = true ->
  issues_only allowed (_set_instance_ip provider).
Proof.
  intros H1 H2 H3. unfold _set_instance_ip, _get_vnic_attachments.
  apply issues_bind; [apply issues_get_instance; exact H1 | intros].
  repeat first [ apply issues_first_address; exact H3 | issues_step; eauto ].
Qed.

Lemma issues_start_instance :
  allowed get_instance = true -> allowed instance_action = true ->
  issues_only allowed (_start_instance provider).
Proof.
  intros H1 H2. unfold _start_instance.
  apply issues_bind; [apply issues_get_instance; exact H1 | intros].
  repeat first [ apply issues_wait_on_instance; exact H1 | issues_step; eauto ].
Qed.

Lemma issues_stop_instance :
  allowed get_instance = true -> allowed instance_action = true ->
  issues_only allowed (_stop_instance provider).
Proof.
  intros H1 H2. unfold _stop_instance.
  apply issues_bind; [apply issues_get_instance; exact H1 | intros].
  repeat first [ apply issues_wait_on_instance; exact H1 | issues_step; eauto ].
Qed.

Lemma issues_set_image_id :
  allowed get_instance = true -> issues_only allowed (_set_image_id provider).
Proof.
  intros H. unfold _set_image_id.
  apply issues_bind; [apply issues_get_instance; exact H | intros].
  issues_auto.
Qed.

Lemma issues_first_gateway_named n gs :
  issues_only allowed (first_gateway_named n gs).
Proof. induction gs; simpl; issues_auto. Qed.

Lemma issues_get_gateway v n :
  allowed list_internet_gateways = true ->
  issues_only allowed (_get_gateway_in_vcn_by_name provider v n).
Proof.
  intros H. unfold _get_gateway_in_vcn_by_name, _list_gateways_in_vcn.
  repeat first [ apply issues_first_gateway_named | issues_step; eauto ].
Qed.

Lemma issues_create_vcn n c :
  allowed create_vcn = true -> allowed get_vcn = true ->
  issues_only allowed (_create_vcn provider max_polls n c).
Proof. intros H1 H2. unfold _create_vcn. issues_auto. Qed.

Lemma issues_create_subnet a v n :
  allowed create_subnet = true -> allowed get_subnet = true ->
  issues_only allowed (_create_subnet provider max_polls a v n).
Proof. intros H1 H2. unfold _create_subnet. issues_auto. Qed.

Lemma issues_add_route_rule g vcn :
  allowed get_route_table = true -> allowed update_route_table = true ->
  issues_only allowed (_add_route_rule_to_gateway provider max_polls g vcn).
Proof. intros H1 H2. unfold _add_route_rule_to_gateway. issues_auto. Qed.

Lemma issues_create_internet_gateway vcn n :
  allowed create_internet_gateway = true ->
  allowed get_internet_gateway = true ->
  allowed get_route_table = true -> allowed update_route_table = true ->
  issues_only allowed (_create_internet_gateway provider max_polls vcn n).
Proof.
  intros H1 H2 H3 H4. unfold _create_internet_gateway.
  repeat first [ apply issues_add_route_rule; assumption | issues_step; eauto ].
Qed.

End IssuesMethods.

(** X1.  Address resolution only reads: whatever the provider answers, the
    requests [_set_instance_ip] issues are lookups of the instance, of its
    attachments and of their interfaces. *)
Theorem resolve_address_only_reads :
  forall provider : Provider,
    issues_only reads_addresses (_set_instance_ip provider).
Proof.
  intros provider. apply issues_set_instance_ip; reflexivity.
Qed.

(** X2.  Start and stop issue nothing but lookups of the instance and the
    action on it, and leave every attribute of [self] as it was. *)
Theorem start_stop_frame :
  forall (provider : Provider) (st : St),
    issues_only looks_up_or_acts (_start_instance provider)
    /\ issues_only looks_up_or_acts (_stop_instance provider)
    /\ fst (snd (_start_instance provider st)) = fst st
    /\ fst (snd (_stop_instance provider st)) = fst st.
Proof.
  intros provider st. repeat split.
  - apply issues_start_instance; reflexivity.
  - apply issues_stop_instance; reflexivity.
  - apply (keeps_start_instance (fun o => o)).
  - apply (keeps_stop_instance (fun o => o)).
Qed.

(** X3.  Terminate writes no attribute of [self]: in particular the
    identifier of the terminated instance stays in [running_instance_id],
    and a cached address stays in [instance_ip]. *)
Theorem terminate_keeps_self :
  forall (provider : Provider) (polls : nat) (st : St),
    fst (snd (_terminate_instance provider polls st)) = fst st.
Proof.
  intros provider polls st.
  apply (keeps_terminate_instance (fun o => o)).
Qed.

(** X4.  When the provider cannot look up the instance, termination, address
    resolution and [_set_image_id] raise the error 'Instance with ID: <id>
    not found.' after that one lookup: no terminate request is issued, and
    no attribute of [self] is written, so a cached address and the image
    identifier stay as they were. *)
Theorem unknown_instance_stops_the_method :
  forall (provider : Provider) (polls : nat) (self : OCICloud)
         (log : list Request) (e : Exn),
    provider log (get_instance_request self) = Raises e ->
    let stopped :=
      (@Raise unit
         (OCICloudException
            ("Instance with ID: " ++ py_str (running_instance_id self)
             ++ " not found.")),
       (self, (log ++ [get_instance_request self])%list)) in
    _terminate_instance provider polls (self, log) = stopped
    /\ _set_instance_ip provider (self, log) = stopped
    /\ _set_image_id provider (self, log) = stopped.
Proof.
  intros provider polls self log e He stopped. repeat split.
  - unfold _terminate_instance.
    rewrite (bind_raise _ _ _ _ _ (_get_instance_raises _ _ _ _ He)).
    reflexivity.
  - unfold _set_instance_ip.
    rewrite (bind_raise _ _ _ _ _ (_get_instance_raises _ _ _ _ He)).
    reflexivity.
  - unfold _set_image_id.
    rewrite (bind_raise _ _ _ _ _ (_get_instance_raises _ _ _ _ He)).
    reflexivity.
Qed.

Lemma unknown_instance_stops_the_method_witness :
  _terminate_instance (cloud_missing (ServiceError 404)) 5
    (sample_self VNone, []) =
    (Raise (OCICloudException "Instance with ID: ocid1.instance.i not found."),
     (sample_self VNone, [get_instance_request (sample_self VNone)]))
  /\ _set_instance_ip (cloud_missing (ServiceError 404))
       (sample_self VNone, []) =
     (Raise (OCICloudException "Instance with ID: ocid1.instance.i not found."),
      (sample_self VNone, [get_instance_request (sample_self VNone)]))
  /\ _set_image_id (cloud_missing (ServiceError 404))
       (sample_self VNone, []) =
     (Raise (OCICloudException "Instance with ID: ocid1.instance.i not found."),
      (sample_self VNone, [get_instance_request (sample_self VNone)])).
Proof.
  apply (unknown_instance_stops_the_method (cloud_missing (ServiceError 404)) 5
           (sample_self VNone) [] (ServiceError 404)).
  reflexivity.
Defined.

(** X5.  With an availability domain that is a string, launch never
    succeeds: it raises, writes no attribute of [self] (no instance
    identifier is recorded), and issues no request beyond the name
    generation and the creation of, and the wait for, the virtual network. *)
Theorem launch_never_succeeds :
  forall (provider : Provider) (ty : string) (polls : nat) (self : OCICloud)
         (log : list Request) (ad : string),
    availability_domain self = VStr ad ->
    (exists e, fst (_launch_instance provider ty polls (self, log)) = Raise e)
    /\ fst (snd (_launch_instance provider ty polls (self, log))) = self
    /\ exists new,
         snd (snd (_launch_instance provider ty polls (self, log))) =
           (log ++ new)%list
         /\ forallb (fun r => names_or_makes_vcn (req_op r)) new = true.
Proof.
  intros provider ty polls self log ad Had. unfold _launch_instance.
  set (gen := Req generate_instance_name [VStr "oci-ipa-test"] []).
  pose proof (keeps_call (fun o => o) provider gen (self, log)) as [Hs1 _].
  pose proof (issues_call names_or_makes_vcn provider gen eq_refl (self, log))
    as (new1 & Hl1 & Hall1).
  destruct (call provider gen (self, log)) as [[dn | e] [o1 log1]] eqn:E1;
    simpl in Hs1, Hl1; subst o1 log1.
  - rewrite (bind_ok _ _ _ _ _ E1).
    pose proof (keeps_create_vcn (fun o => o) provider polls dn
                  (VStr "10.0.0.0/29") (self, (log ++ new1)%list)) as [Hs2 _].
    pose proof (issues_create_vcn names_or_makes_vcn provider polls dn
                  (VStr "10.0.0.0/29") eq_refl eq_refl
                  (self, (log ++ new1)%list)) as (new2 & Hl2 & Hall2).
    destruct (_create_vcn provider polls dn (VStr "10.0.0.0/29")
                (self, (log ++ new1)%list)) as [[vcn | e] [o2 log2]] eqn:E2;
      simpl in Hs2, Hl2; subst o2 log2.
    + rewrite (bind_ok _ _ _ _ _ E2), bind_get_self, Had.
      rewrite (bind_raise _ _ _ (AttributeError "compartment_id")
                 (self, ((log ++ new1) ++ new2)%list)) by reflexivity.
      split; [eexists; reflexivity | split; [reflexivity |]].
      exists (new1 ++ new2)%list. simpl.
      rewrite app_assoc, forallb_app, Hall1, Hall2. split; reflexivity.
    + rewrite (bind_raise _ _ _ _ _ E2).
      split; [eexists; reflexivity | split; [reflexivity |]].
      exists (new1 ++ new2)%list. simpl.
      rewrite app_assoc, forallb_app, Hall1, Hall2. split; reflexivity.
  - rewrite (bind_raise _ _ _ _ _ E1).
    split; [eexists; reflexivity | split; [reflexivity |]].
    exists new1. split; [reflexivity | exact Hall1].
Qed.

Lemma launch_never_succeeds_witness :
  (exists e, fst (_launch_instance cloud_ok "VM.Standard2.1" 5
                    (sample_self VNone, [])) = Raise e)
  /\ fst (snd (_launch_instance cloud_ok "VM.Standard2.1" 5
                 (sample_self VNone, []))) = sample_self VNone
  /\ exists new,
       snd (snd (_launch_instance cloud_ok "VM.Standard2.1" 5
                   (sample_self VNone, []))) = ([] ++ new)%list
       /\ forallb (fun r => names_or_makes_vcn (req_op r)) new = true.
Proof.
  apply (launch_never_succeeds cloud_ok "VM.Standard2.1" 5 (sample_self VNone)
           [] "Uocm:PHX-AD-1").
  reflexivity.
Defined.

(** ** Network scaffolding *)

Lemma snd_bind_ret_tt {A} (m : M A) st :
  snd (bind m (fun _ => ret tt) st) = snd (m st).
Proof. unfold bind. destruct (m st) as [[a | e] st']; reflexivity. Qed.

(** A wait on a response that already shows the state returns it at once. *)
Lemma wait_until_ready provider polls req d property state b st :
  attribute d property = Some (VStr state) ->
  wait_until provider polls (VResponse req d) property state b st =
    (Ok (VResponse req d), st).
Proof.
  intros H. unfold wait_until.
  destruct polls; simpl;
    rewrite (bind_ok _ _ _ d st) by reflexivity;
    rewrite (bind_ok _ _ _ _ _ (getattr_some _ _ _ st H));
    simpl; rewrite String.eqb_refl; reflexivity.
Qed.

Lemma snd_bind_pure {A B} (m : M A) (k : A -> M B) st :
  (forall a st', snd (k a st') = st') -> snd (bind m k st) = snd (m st).
Proof.
  intros H. unfold bind. destruct (m st) as [[a | e] st']; [apply H | reflexivity].
Qed.

(** A request, then a fetch and the wait on it: the log of the three. *)
Lemma request_fetch_wait_log {B} provider polls r1 r2 property state b
    (k : PyVal -> M B) o log :
  (forall w st, snd (k w st) = st) ->
  exists n,
    n <= S polls
    /\ snd ((api provider r1;;;
             g <- api provider r2;;
             w <- wait_until provider polls g property state b;;
             k w) (o, log)) =
       (o, (log ++ r1 :: repeat r2 n)%list).
Proof.
  intros Hk.
  destruct (provider log r1) as [v1 | e1] eqn:H1.
  - rewrite (bind_ok _ _ _ _ _ (api_returns _ _ _ o _ H1)).
    destruct (provider (log ++ [r1])%list r2) as [v2 | e2] eqn:H2.
    + rewrite (bind_ok _ _ _ _ _ (api_returns _ _ _ o _ H2)).
      rewrite (snd_bind_pure _ _ _ Hk). unfold wait_until.
      destruct (wait_until_loop_log provider polls r2 v2 property state b o
                  ((log ++ [r1]) ++ [r2])%list) as (n & Hn & Hlog).
      exists (S n). split; [lia |]. rewrite Hlog. simpl repeat.
      rewrite <- !app_assoc. reflexivity.
    + rewrite (bind_raise _ _ _ _ _ (api_raises _ _ _ o _ H2)).
      exists 1. split; [lia |]. simpl. rewrite <- app_assoc. reflexivity.
  - rewrite (bind_raise _ _ _ _ _ (api_raises _ _ _ o _ H1)).
    exists 0. split; [lia |]. reflexivity.
Qed.

(** X6.  A deletion touches the named resource only: [_delete_vcn],
    [_delete_subnet] and [_delete_internet_gateway] issue the delete request
    for the identifier they are given and then only fetches of that same
    identifier, one more at most than the wait may poll; they write no
    attribute of [self]. *)
Theorem delete_touches_only_the_resource :
  forall (provider : Provider) (polls : nat) (id : PyVal) (o : OCICloud)
         (log : list Request),
    (exists n,
        n <= S polls
        /\ snd (_delete_vcn provider polls id (o, log)) =
           (o, (log ++ Req delete_vcn [id] []
                    :: repeat (Req get_vcn [id] []) n)%list))
    /\ (exists n,
           n <= S polls
           /\ snd (_delete_subnet provider polls id (o, log)) =
              (o, (log ++ Req delete_subnet [id] []
                       :: repeat (Req get_subnet [id] []) n)%list))
    /\ (exists n,
           n <= S polls
           /\ snd (_delete_internet_gateway provider polls id (o, log)) =
              (o, (log ++ Req delete_internet_gateway [id] []
                       :: repeat (Req get_internet_gateway [id] []) n)%list)).
Proof.
  intros provider polls id o log. repeat apply conj.
  - exact (request_fetch_wait_log provider polls (Req delete_vcn [id] [])
             (Req get_vcn [id] []) "lifecycle_state" "TERMINATED" true
             (fun _ => ret tt) o log (fun _ _ => eq_refl)).
  - exact (request_fetch_wait_log provider polls (Req delete_subnet [id] [])
             (Req get_subnet [id] []) "lifecycle_state" "TERMINATED" true
             (fun _ => ret tt) o log (fun _ _ => eq_refl)).
  - exact (request_fetch_wait_log provider polls
             (Req delete_internet_gateway [id] [])
             (Req get_internet_gateway [id] []) "lifecycle_state" "TERMINATED"
             true (fun _ => ret tt) o log (fun _ _ => eq_refl)).
Qed.

(** X7.  When the provider creates the network and shows it AVAILABLE at the
    first fetch, [_create_vcn] returns the model of the create response after
    exactly two requests: the creation of '<name>-vnet' in the compartment of
    [self], and one fetch of the created network. *)
Theorem create_vcn_returns_created :
  forall (provider : Provider) (polls : nat) (name : string)
         (cidr vcn vid shown : PyVal) (self : OCICloud) (log : list Request),
    let create :=
      Req create_vcn
        [VModel "CreateVcnDetails"
           [("cidr_block", cidr); ("display_name", VStr (name ++ "-vnet"));
            ("compartment_id", compartment_id self)]] [] in
    provider log create = Returns vcn ->
    attribute vcn "id" = Some vid ->
    provider (log ++ [create])%list (Req get_vcn [vid] []) = Returns shown ->
    attribute shown "lifecycle_state" = Some (VStr "AVAILABLE") ->
    _create_vcn provider polls (VStr name) cidr (self, log) =
      (Ok vcn, (self, (log ++ [create; Req get_vcn [vid] []])%list)).
Proof.
  intros provider polls name cidr vcn vid shown self log create Hc Hid Hg Hs.
  unfold _create_vcn. rewrite bind_get_self.
  change (py_add_str (VStr name) "-vnet") with (@ret string (name ++ "-vnet")).
  rewrite bind_ret. fold create.
  rewrite (bind_ok _ _ _ _ _ (api_returns _ _ _ self _ Hc)).
  rewrite (bind_ok _ _ _ vcn _) by reflexivity.
  rewrite (bind_ok _ _ _ _ _ (getattr_some _ _ _ _ Hid)).
  rewrite (bind_ok _ _ _ _ _ (api_returns _ _ _ self _ Hg)).
  rewrite (bind_ok _ _ _ _ _
             (wait_until_ready provider polls _ _ _ _ false _ Hs)).
  rewrite <- app_assoc. reflexivity.
Qed.

Lemma create_vcn_returns_created_witness :
  _create_vcn cloud_ok 5 (VStr "oci-ipa-test-x1") (VStr "10.0.0.0/29")
    (sample_self VNone, []) =
    (Ok sample_vcn,
     (sample_self VNone,
      [create_vcn_request "oci-ipa-test-x1" (sample_self VNone);
       Req get_vcn [VStr "ocid1.vcn.a"] []])).
Proof.
  apply (create_vcn_returns_created cloud_ok 5 "oci-ipa-test-x1"
           (VStr "10.0.0.0/29") sample_vcn (VStr "ocid1.vcn.a") sample_vcn
           (sample_self VNone) []); reflexivity.
Defined.

(** X8.  A display name that is no string makes the creation of a network
    and of a gateway raise [TypeError] before any request is issued. *)
Theorem create_with_bad_name_requests_nothing :
  forall (provider : Provider) (polls : nat) (name cidr vcn : PyVal) (st : St),
    (forall s, name <> VStr s) ->
    _create_vcn provider polls name cidr st = (Raise TypeError, st)
    /\ _create_internet_gateway provider polls vcn name st =
         (Raise TypeError, st).
Proof.
  intros provider polls name cidr vcn [o log] Hname.
  assert (Hadd : forall suffix st, py_add_str name suffix st = (Raise TypeError, st)).
  { intros suffix st. destruct name; try reflexivity.
    exfalso. eapply Hname. reflexivity. }
  split.
  - unfold _create_vcn. rewrite bind_get_self.
    rewrite (bind_raise _ _ _ _ _ (Hadd "-vnet" (o, log))). reflexivity.
  - unfold _create_internet_gateway.
    rewrite (bind_raise _ _ _ _ _ (Hadd "-gateway" (o, log))). reflexivity.
Qed.

Lemma create_with_bad_name_requests_nothing_witness :
  _create_vcn cloud_ok 5 VNone (VStr "10.0.0.0/29") (sample_self VNone, []) =
    (Raise TypeError, (sample_self VNone, []))
  /\ _create_internet_gateway cloud_ok 5 sample_vcn VNone
       (sample_self VNone, []) = (Raise TypeError, (sample_self VNone, [])).
Proof.
  apply (create_with_bad_name_requests_nothing cloud_ok 5 VNone
           (VStr "10.0.0.0/29") sample_vcn (sample_self VNone, [])).
  intros s H. discriminate H.
Defined.

Lemma bind_ext {A B} (m : M A) (f g : A -> M B) st :
  (forall a st', f a st' = g a st') -> bind m f st = bind m g st.
Proof.
  intros H. unfold bind. destruct (m st) as [[a | e] st']; [apply H | reflexivity].
Qed.

(** [_add_route_rule_to_gateway] up to its wait. *)
Lemma _add_route_rule_requests provider polls gw vcn rt table rules gid o log :
  attribute vcn "default_route_table_id" = Some rt ->
  provider log (Req get_route_table [rt] []) = Returns table ->
  attribute table "route_rules" = Some (VList rules) ->
  attribute gw "id" = Some gid ->
  _add_route_rule_to_gateway provider polls gw vcn (o, log) =
    (api provider (update_rules_request rt (rules ++ [default_route gid]));;;
     g <- api provider (Req get_route_table [rt] []);;
     w <- wait_until provider polls g "lifecycle_state" "AVAILABLE" false;;
     getattr w "data")
      (o, (log ++ [Req get_route_table [rt] []])%list).
Proof.
  intros Hrt Htable Hrules Hgid. unfold _add_route_rule_to_gateway.
  rewrite (bind_ok _ _ _ _ _ (getattr_some _ _ _ _ Hrt)).
  rewrite (bind_ok _ _ _ _ _ (api_returns _ _ _ o _ Htable)).
  rewrite (bind_ok _ _ _ table _) by reflexivity.
  rewrite (bind_ok _ _ _ _ _ (getattr_some _ _ _ _ Hrules)).
  rewrite bind_ret.
  rewrite (bind_ok _ _ _ _ _ (getattr_some _ _ _ _ Hgid)).
  rewrite (bind_ok _ _ _ _ _ (getattr_some _ _ _ _ Hrt)).
  apply bind_ext. intros _ st.
  rewrite (bind_ok _ _ _ _ _ (getattr_some _ _ _ _ Hrt)). reflexivity.
Qed.

Lemma snd_getattr v name st : snd (getattr v name st) = st.
Proof. unfold getattr. destruct (attribute v name); reflexivity. Qed.

(** X9.  [_add_route_rule_to_gateway] keeps the rules the default route
    table of the network already has: it reads the table, then sets its
    rules to the rules read followed by the route 0.0.0.0/0 to the gateway,
    and after that only fetches that table, one more time at most than the
    wait may poll. *)
Theorem add_route_rule_appends :
  forall (provider : Provider) (polls : nat) (gw vcn rt table gid : PyVal)
         (rules : list PyVal) (o : OCICloud) (log : list Request),
    attribute vcn "default_route_table_id" = Some rt ->
    provider log (Req get_route_table [rt] []) = Returns table ->
    attribute table "route_rules" = Some (VList rules) ->
    attribute gw "id" = Some gid ->
    exists n,
      n <= S polls
      /\ snd (_add_route_rule_to_gateway provider polls gw vcn (o, log)) =
         (o, (log ++ [Req get_route_table [rt] [];
                      update_rules_request rt (rules ++ [default_route gid])]
                  ++ repeat (Req get_route_table [rt] []) n)%list).
Proof.
  intros provider polls gw vcn rt table gid rules o log Hrt Htable Hrules Hgid.
  rewrite (_add_route_rule_requests _ _ _ _ _ _ _ _ _ _ Hrt Htable Hrules Hgid).
  destruct (request_fetch_wait_log provider polls
              (update_rules_request rt (rules ++ [default_route gid]))
              (Req get_route_table [rt] []) "lifecycle_state" "AVAILABLE" false
              (fun w => getattr w "data") o
              (log ++ [Req get_route_table [rt] []])%list
              (fun w st => snd_getattr w "data" st)) as (n & Hn & Hlog).
  exists n. split; [exact Hn |]. rewrite Hlog. simpl.
  rewrite <- app_assoc. reflexivity.
Qed.

Lemma add_route_rule_appends_witness :
  exists n,
    n <= 6
    /\ snd (_add_route_rule_to_gateway cloud_with_rule 5 sample_gateway
              sample_vcn (sample_self VNone, [])) =
       (sample_self VNone,
        ([] ++ [Req get_route_table [VStr "ocid1.routetable.a"] [];
                update_rules_request (VStr "ocid1.routetable.a")
                  ([default_route (VStr "ocid1.drg.a")]
                     ++ [default_route (VStr "ocid1.internetgateway.a")])]
            ++ repeat (Req get_route_table [VStr "ocid1.routetable.a"] []) n)%list).
Proof.
  apply (add_route_rule_appends cloud_with_rule 5 sample_gateway sample_vcn
           (VStr "ocid1.routetable.a")
           (VModel "RouteTable"
              [("id", VStr "ocid1.routetable.a");
               ("route_rules", VList [default_route (VStr "ocid1.drg.a")]);
               ("lifecycle_state", VStr "AVAILABLE")])
           (VStr "ocid1.internetgateway.a")
           [default_route (VStr "ocid1.drg.a")] (sample_self VNone) []);
    reflexivity.
Defined.

(** X10.  When the route table read has no list of rules,
    [_add_route_rule_to_gateway] raises [AttributeError] for 'append' after
    that one read: the table is not updated. *)
Theorem add_route_rule_without_list :
  forall (provider : Provider) (polls : nat) (gw vcn rt table rules : PyVal)
         (o : OCICloud) (log : list Request),
    attribute vcn "default_route_table_id" = Some rt ->
    provider log (Req get_route_table [rt] []) = Returns table ->
    attribute table "route_rules" = Some rules ->
    (forall l, rules <> VList l) ->
    _add_route_rule_to_gateway provider polls gw vcn (o, log) =
      (Raise (AttributeError "append"),
       (o, (log ++ [Req get_route_table [rt] []])%list)).
Proof.
  intros provider polls gw vcn rt table rules o log Hrt Htable Hrules Hno.
  unfold _add_route_rule_to_gateway.
  rewrite (bind_ok _ _ _ _ _ (getattr_some _ _ _ _ Hrt)).
  rewrite (bind_ok _ _ _ _ _ (api_returns _ _ _ o _ Htable)).
  rewrite (bind_ok _ _ _ table _) by reflexivity.
  rewrite (bind_ok _ _ _ _ _ (getattr_some _ _ _ _ Hrules)).
  destruct rules; try reflexivity.
  exfalso. eapply Hno. reflexivity.
Qed.

Lemma add_route_rule_without_list_witness :
  _add_route_rule_to_gateway cloud_without_rules 5 sample_gateway sample_vcn
    (sample_self VNone, []) =
    (Raise (AttributeError "append"),
     (sample_self VNone, [Req get_route_table [VStr "ocid1.routetable.a"] []])).
Proof.
  apply (add_route_rule_without_list cloud_without_rules 5 sample_gateway
           sample_vcn (VStr "ocid1.routetable.a")
           (VModel "RouteTable"
              [("id", VStr "ocid1.routetable.a"); ("route_rules", VNone);
               ("lifecycle_state", VStr "AVAILABLE")])
           VNone (sample_self VNone) []); try reflexivity.
  intros l H. discriminate H.
Defined.

(** X11.  Given a network (an object with a default route table),
    [_clear_route_rules] sets the rules of that table to the empty list and
    then only fetches that table, one more time at most than the wait may
    poll. *)
Theorem clear_route_rules_empties_the_table :
  forall (provider : Provider) (polls : nat) (vcn rt : PyVal) (o : OCICloud)
         (log : list Request),
    attribute vcn "default_route_table_id" = Some rt ->
    exists n,
      n <= S polls
      /\ snd (_clear_route_rules provider polls vcn (o, log)) =
         (o, (log ++ update_rules_request rt []
                  :: repeat (Req get_route_table [rt] []) n)%list).
Proof.
  intros provider polls vcn rt o log Hrt.
  destruct (request_fetch_wait_log provider polls (update_rules_request rt [])
              (Req get_route_table [rt] []) "lifecycle_state" "AVAILABLE" false
              (fun _ => ret tt) o log (fun _ _ => eq_refl)) as (n & Hn & Hlog).
  exists n. split; [exact Hn |]. rewrite <- Hlog.
  unfold _clear_route_rules.
  rewrite (bind_ok _ _ _ _ _ (getattr_some _ _ _ _ Hrt)).
  f_equal. apply bind_ext. intros _ st.
  rewrite (bind_ok _ _ _ _ _ (getattr_some _ _ _ _ Hrt)). reflexivity.
Qed.

Lemma clear_route_rules_empties_the_table_witness :
  exists n,
    n <= 6
    /\ snd (_clear_route_rules cloud_ok 5 sample_vcn (sample_self VNone, [])) =
       (sample_self VNone,
        ([] ++ update_rules_request (VStr "ocid1.routetable.a") []
            :: repeat (Req get_route_table [VStr "ocid1.routetable.a"] []) n)%list).
Proof.
  apply (clear_route_rules_empties_the_table cloud_ok 5 sample_vcn
           (VStr "ocid1.routetable.a") (sample_self VNone) []).
  reflexivity.
Defined.

Lemma _add_route_rule_available provider polls gw vcn rt table rules gid u o log :
  attribute vcn "default_route_table_id" = Some rt ->
  (forall l, provider l (Req get_route_table [rt] []) = Returns table) ->
  attribute table "route_rules" = Some (VList rules) ->
  attribute table "lifecycle_state" = Some (VStr "AVAILABLE") ->
  attribute gw "id" = Some gid ->
  provider (log ++ [Req get_route_table [rt] []])%list
    (update_rules_request rt (rules ++ [default_route gid])) = Returns u ->
  _add_route_rule_to_gateway provider polls gw vcn (o, log) =
    (Ok table,
     (o, (log ++ [Req get_route_table [rt] [];
                  update_rules_request rt (rules ++ [default_route gid]);
                  Req get_route_table [rt] []])%list)).
Proof.
  intros Hrt Htable Hrules Hstate Hgid Hu.
  rewrite (_add_route_rule_requests _ _ _ _ _ _ _ _ _ _
             Hrt (Htable log) Hrules Hgid).
  rewrite (bind_ok _ _ _ _ _ (api_returns _ _ _ o _ Hu)).
  rewrite (bind_ok _ _ _ _ _ (api_returns _ _ _ o _ (Htable _))).
  rewrite (bind_ok _ _ _ _ _
             (wait_until_ready provider polls _ _ _ _ false _ Hstate)).
  rewrite <- !app_assoc. reflexivity.
Qed.

(** X12.  In a cloud that creates the gateway, shows it AVAILABLE at the
    first fetch and accepts the update of the route table,
    [_create_internet_gateway] returns the created gateway after five
    requests in this order: the creation of '<name>-gateway' in the network,
    a fetch of the gateway, a read of the default route table of the
    network, the update of that table with its rules followed by the route
    0.0.0.0/0 to the identifier of the created gateway, and a fetch of the
    table. *)
Theorem create_internet_gateway_trace :
  forall (provider : Provider) (polls : nat) (name : string)
         (vcn c v rt gw gid shown table : PyVal) (rules : list PyVal)
         (o : OCICloud) (log : list Request),
    attribute vcn "compartment_id" = Some c ->
    attribute vcn "id" = Some v ->
    attribute vcn "default_route_table_id" = Some rt ->
    (forall l, provider l (create_gateway_request name c v) = Returns gw) ->
    attribute gw "id" = Some gid ->
    (forall l, provider l (Req get_internet_gateway [gid] []) = Returns shown) ->
    attribute shown "lifecycle_state" = Some (VStr "AVAILABLE") ->
    (forall l, provider l (Req get_route_table [rt] []) = Returns table) ->
    attribute table "route_rules" = Some (VList rules) ->
    attribute table "lifecycle_state" = Some (VStr "AVAILABLE") ->
    (forall l, exists u,
        provider l (update_rules_request rt (rules ++ [default_route gid])) =
          Returns u) ->
    _create_internet_gateway provider polls vcn (VStr name) (o, log) =
      (Ok gw,
       (o, (log ++ [create_gateway_request name c v;
                    Req get_internet_gateway [gid] [];
                    Req get_route_table [rt] [];
                    update_rules_request rt (rules ++ [default_route gid]);
                    Req get_route_table [rt] []])%list)).
Proof.
  intros provider polls name vcn c v rt gw gid shown table rules o log
    Hc Hv Hrt Hgw Hgid Hshown Havail Htable Hrules Hstate Hupd.
  unfold _create_internet_gateway.
  change (py_add_str (VStr name) "-gateway")
    with (@ret string (name ++ "-gateway")).
  rewrite bind_ret.
  rewrite (bind_ok _ _ _ _ _ (getattr_some _ _ _ _ Hc)).
  rewrite (bind_ok _ _ _ _ _ (getattr_some _ _ _ _ Hv)).
  fold (create_gateway_request name c v).
  rewrite (bind_ok _ _ _ _ _ (api_returns _ _ _ o _ (Hgw log))).
  rewrite (bind_ok _ _ _ gw _) by reflexivity.
  rewrite (bind_ok _ _ _ _ _ (getattr_some _ _ _ _ Hgid)).
  rewrite (bind_ok _ _ _ _ _ (api_returns _ _ _ o _ (Hshown _))).
  rewrite (bind_ok _ _ _ _ _
             (wait_until_ready provider polls _ _ _ _ false _ Havail)).
  match goal with
  | |- context [bind (_add_route_rule_to_gateway provider polls gw vcn) _
                  (o, ?l)] =>
      destruct (Hupd (l ++ [Req get_route_table [rt] []])%list) as [u Hu];
      rewrite (bind_ok _ _ _ _ _
                 (_add_route_rule_available provider polls gw vcn rt table
                    rules gid u o l Hrt Htable Hrules Hstate Hgid Hu))
  end.
  unfold ret. rewrite <- !app_assoc. reflexivity.
Qed.

Lemma create_internet_gateway_trace_witness :
  _create_internet_gateway cloud_ok 5 sample_vcn (VStr "oci-ipa-test-x1")
    (sample_self VNone, []) =
    (Ok sample_gateway,
     (sample_self VNone,
      ([] ++ [create_gateway_request "oci-ipa-test-x1"
                (VStr "ocid1.compartment.c") (VStr "ocid1.vcn.a");
              Req get_internet_gateway [VStr "ocid1.internetgateway.a"] [];
              Req get_route_table [VStr "ocid1.routetable.a"] [];
              update_rules_request (VStr "ocid1.routetable.a")
                ([] ++ [default_route (VStr "ocid1.internetgateway.a")]);
              Req get_route_table [VStr "ocid1.routetable.a"] []])%list)).
Proof.
  apply (create_internet_gateway_trace cloud_ok 5 "oci-ipa-test-x1" sample_vcn
           (VStr "ocid1.compartment.c") (VStr "ocid1.vcn.a")
           (VStr "ocid1.routetable.a") sample_gateway
           (VStr "ocid1.internetgateway.a") sample_gateway sample_route_table
           [] (sample_self VNone) []);
    try reflexivity.
  intros l. exists sample_route_table. reflexivity.
Defined.

(** ** Lookups *)

Lemma first_gateway_named_skip name pre :
  Forall (named_otherwise name) pre ->
  forall rest st,
    first_gateway_named name (pre ++ rest) st = first_gateway_named name rest st.
Proof.
  induction 1 as [| g pre (n & Hn & Hne) _ IH]; intros rest st.
  - reflexivity.
  - simpl. rewrite (bind_ok _ _ _ _ _ (getattr_some _ _ _ st Hn)).
    rewrite Hne. apply IH.
Qed.

Lemma _get_gateway_loop provider self log vcn_id name gateways :
  provider log (list_gateways_request (compartment_id self) vcn_id) =
    Returns (VList gateways) ->
  _get_gateway_in_vcn_by_name provider vcn_id name (self, log) =
    first_gateway_named name gateways
      (self, (log ++ [list_gateways_request (compartment_id self) vcn_id])%list).
Proof.
  intros H. unfold _get_gateway_in_vcn_by_name, _list_gateways_in_vcn.
  rewrite bind_get_self, bind_assoc.
  rewrite (bind_ok _ _ _ _ _ (api_returns _ _ _ self _ H)).
  rewrite (bind_ok _ _ _ (VList gateways) _) by reflexivity.
  rewrite (bind_ok _ _ _ gateways _) by reflexivity.
  reflexivity.
Qed.

(** X13.  [_get_gateway_in_vcn_by_name] lists the gateways of the network in
    the compartment of [self] with one request and returns the first gateway
    of the list whose display name is the name asked for; the gateways after
    it are not looked at. *)
Theorem get_gateway_returns_first_named :
  forall (provider : Provider) (self : OCICloud) (log : list Request)
         (vcn_id g : PyVal) (name : string) (pre post : list PyVal),
    provider log (list_gateways_request (compartment_id self) vcn_id) =
      Returns (VList (pre ++ g :: post)) ->
    Forall (named_otherwise name) pre ->
    attribute g "display_name" = Some (VStr name) ->
    _get_gateway_in_vcn_by_name provider vcn_id name (self, log) =
      (Ok g,
       (self, (log ++ [list_gateways_request (compartment_id self) vcn_id])%list)).
Proof.
  intros provider self log vcn_id g name pre post Hlist Hpre Hg.
  rewrite (_get_gateway_loop _ _ _ _ _ _ Hlist).
  rewrite (first_gateway_named_skip _ _ Hpre). simpl.
  rewrite (bind_ok _ _ _ _ _ (getattr_some _ _ _ _ Hg)).
  simpl. rewrite String.eqb_refl. reflexivity.
Qed.

Lemma other_gateway_named_otherwise :
  named_otherwise "oci-ipa-test-x1-gateway"
    (VModel "InternetGateway"
       [("id", VStr "ocid1.internetgateway.z");
        ("display_name", VStr "other-gateway")]).
Proof. exists (VStr "other-gateway"). split; reflexivity. Qed.

Lemma get_gateway_returns_first_named_witness :
  _get_gateway_in_vcn_by_name cloud_two_gateways (VStr "ocid1.vcn.a")
    "oci-ipa-test-x1-gateway" (sample_self VNone, []) =
    (Ok sample_gateway,
     (sample_self VNone,
      [list_gateways_request (VStr "ocid1.compartment.c") (VStr "ocid1.vcn.a")])).
Proof.
  apply (get_gateway_returns_first_named cloud_two_gateways (sample_self VNone)
           [] (VStr "ocid1.vcn.a") sample_gateway "oci-ipa-test-x1-gateway"
           [VModel "InternetGateway"
              [("id", VStr "ocid1.internetgateway.z");
               ("display_name", VStr "other-gateway")]] []).
  - reflexivity.
  - apply Forall_cons; [apply other_gateway_named_otherwise | apply Forall_nil].
  - reflexivity.
Defined.

(** X14.  When no gateway of the network has the name asked for, the empty
    list included, [_get_gateway_in_vcn_by_name] returns [None]: the absence
    of the gateway is no error. *)
Theorem get_gateway_returns_none :
  forall (provider : Provider) (self : OCICloud) (log : list Request)
         (vcn_id : PyVal) (name : string) (gateways : list PyVal),
    provider log (list_gateways_request (compartment_id self) vcn_id) =
      Returns (VList gateways) ->
    Forall (named_otherwise name) gateways ->
    _get_gateway_in_vcn_by_name provider vcn_id name (self, log) =
      (Ok VNone,
       (self, (log ++ [list_gateways_request (compartment_id self) vcn_id])%list)).
Proof.
  intros provider self log vcn_id name gateways Hlist Hall.
  rewrite (_get_gateway_loop _ _ _ _ _ _ Hlist).
  rewrite <- (app_nil_r gateways).
  rewrite (first_gateway_named_skip _ _ Hall). reflexivity.
Qed.

Lemma get_gateway_returns_none_witness :
  _get_gateway_in_vcn_by_name cloud_two_gateways (VStr "ocid1.vcn.a")
    "absent-gateway" (sample_self VNone, []) =
    (Ok VNone,
     (sample_self VNone,
      [list_gateways_request (VStr "ocid1.compartment.c") (VStr "ocid1.vcn.a")])).
Proof.
  apply (get_gateway_returns_none cloud_two_gateways (sample_self VNone) []
           (VStr "ocid1.vcn.a") "absent-gateway"
           [VModel "InternetGateway"
              [("id", VStr "ocid1.internetgateway.z");
               ("display_name", VStr "other-gateway")];
            sample_gateway]).
  - reflexivity.
  - repeat apply Forall_cons; try apply Forall_nil.
    + exists (VStr "other-gateway"). split; reflexivity.
    + exists (VStr "oci-ipa-test-x1-gateway"). split; reflexivity.
Defined.

(** X15.  [_get_instance_state] issues exactly one lookup, and whatever the
    provider answers it returns the lifecycle state of the instance or
    raises one of two provisioning errors: 'Instance with ID: <id> not
    found.' when the lookup fails, 'Instance with id: <id>, cannot be
    found.' when the object found has no lifecycle state. *)
Theorem get_instance_state_outcomes :
  forall (provider : Provider) (self : OCICloud) (log : list Request),
    _get_instance_state provider (self, log) =
      (match provider log (get_instance_request self) with
       | Raises _ => Raise (instance_not_found self)
       | Returns inst =>
           match attribute inst "lifecycle_state" with
           | Some state => Ok state
           | None => Raise (state_not_found self)
           end
       end,
       (self, (log ++ [get_instance_request self])%list)).
Proof.
  intros provider self log.
  destruct (provider log (get_instance_request self)) as [inst | e] eqn:Hp.
  - destruct (attribute inst "lifecycle_state") as [state |] eqn:Hs.
    + apply (_get_instance_state_returns _ _ _ _ _ Hp Hs).
    + unfold _get_instance_state.
      rewrite (bind_ok _ _ _ _ _ (_get_instance_returns _ _ _ _ Hp)).
      rewrite bind_get_self. unfold try_except.
      rewrite (getattr_none _ _ _ Hs). reflexivity.
  - apply (_get_instance_state_raises _ _ _ _ Hp).
Qed.

(** X16.  [_is_instance_running] compares the state of the instance with
    'running' without regard to case; a state that is no string ([None], for
    an instance that reports none) raises [AttributeError], not a
    provisioning error. *)
Theorem is_instance_running_cases :
  forall (provider : Provider) (self : OCICloud) (log : list Request)
         (inst state : PyVal),
    provider log (get_instance_request self) = Returns inst ->
    attribute inst "lifecycle_state" = Some state ->
    (forall s, state = VStr s ->
               fst (_is_instance_running provider (self, log)) =
                 Ok (String.eqb (lower s) "running"))
    /\ ((forall s, state <> VStr s) ->
        fst (_is_instance_running provider (self, log)) =
          Raise (AttributeError "lower")).
Proof.
  intros provider self log inst state Hp Hs. unfold _is_instance_running.
  rewrite (bind_ok _ _ _ _ _ (_get_instance_state_returns _ _ _ _ _ Hp Hs)).
  split.
  - intros s ->. reflexivity.
  - intros Hno. destruct state; try reflexivity.
    exfalso. eapply Hno. reflexivity.
Qed.

Lemma is_instance_running_cases_witness :
  fst (_is_instance_running cloud_ok (sample_self VNone, [])) = Ok true
  /\ fst (_is_instance_running cloud_stopped (sample_self VNone, [])) = Ok false
  /\ fst (_is_instance_running cloud_stateless (sample_self VNone, [])) =
       Raise (AttributeError "lower").
Proof.
  split; [| split].
  - apply (proj1 (is_instance_running_cases cloud_ok (sample_self VNone) []
                    (sample_instance "RUNNING") (VStr "RUNNING")
                    eq_refl eq_refl) "RUNNING" eq_refl).
  - apply (proj1 (is_instance_running_cases cloud_stopped (sample_self VNone) []
                    (sample_instance "STOPPED") (VStr "STOPPED")
                    eq_refl eq_refl) "STOPPED" eq_refl).
  - apply (proj2 (is_instance_running_cases cloud_stateless (sample_self VNone)
                    []
                    (VModel "Instance" [("id", VStr "ocid1.instance.i");
                                        ("lifecycle_state", VNone)])
                    VNone eq_refl eq_refl)).
    intros s H. discriminate H.
Defined.

(** ** What the methods write *)

(** X17.  Each of the three methods that write [self] writes one attribute:
    launch at most [running_instance_id], address resolution at most
    [instance_ip], [_set_image_id] at most [image_id]; every other attribute
    is as before, whatever the provider answers. *)
Theorem methods_write_one_attribute :
  forall (provider : Provider) (ty : string) (polls : nat) (st : St),
    all_but_instance_id (fst (snd (_launch_instance provider ty polls st))) =
      all_but_instance_id (fst st)
    /\ all_but_instance_ip (fst (snd (_set_instance_ip provider st))) =
         all_but_instance_ip (fst st)
    /\ all_but_image_id (fst (snd (_set_image_id provider st))) =
         all_but_image_id (fst st).
Proof.
  intros provider ty polls st. repeat split.
  - apply (keeps_launch_instance all_but_instance_id); reflexivity.
  - apply (keeps_set_instance_ip all_but_instance_ip); reflexivity.
  - apply (keeps_set_image_id all_but_image_id); reflexivity.
Qed.

(** X18.  Address resolution forgets the cached address before it looks for
    a new one: when the instance is found and none of its attachments
    exposes an address, the error is raised and [instance_ip] is [None],
    whatever it held before. *)
Theorem failed_resolution_clears_the_cache :
  forall (provider : Provider) (self : OCICloud) (log : list Request)
         (atts : list PyVal),
    attachments_of provider self log atts ->
    Forall (exposes_nothing provider) atts ->
    fst (_set_instance_ip provider (self, log)) =
      Raise (OCICloudException "IP address for instance cannot be found.")
    /\ fst (snd (_set_instance_ip provider (self, log))) =
         set_instance_ip VNone self.
Proof.
  intros provider self log atts Hatts Hnone.
  destruct (_set_instance_ip_loop _ _ _ _ Hatts) as [log1 ->].
  destruct (first_address_skip _ _ Hnone [] (set_instance_ip VNone self) log1)
    as [log2 H2].
  rewrite app_nil_r in H2. simpl in H2.
  rewrite (bind_ok _ _ _ _ _ H2). split; reflexivity.
Qed.

Lemma cached_attachments_of :
  attachments_of (cloud_one_nic VNone VNone) sample_cached []
    [sample_attachment "ocid1.vnic.a"].
Proof.
  exists (sample_instance "RUNNING"), (VStr "ocid1.compartment.c"),
    (VStr "ocid1.instance.i").
  repeat split; reflexivity.
Qed.

Lemma failed_resolution_clears_the_cache_witness :
  fst (_set_instance_ip (cloud_one_nic VNone VNone) (sample_cached, [])) =
    Raise (OCICloudException "IP address for instance cannot be found.")
  /\ fst (snd (_set_instance_ip (cloud_one_nic VNone VNone) (sample_cached, []))) =
       sample_self VNone.
Proof.
  apply (failed_resolution_clears_the_cache (cloud_one_nic VNone VNone)
           sample_cached [] [sample_attachment "ocid1.vnic.a"]).
  - apply cached_attachments_of.
  - apply Forall_cons; [| apply Forall_nil].
    exists VNone, VNone.
    split; [apply sample_exposes | split; reflexivity].
Defined.

(** X19.  When the instance is found, [_set_image_id] replaces the image
    identifier of [self] by the image the instance was created from, with
    one lookup. *)
Theorem set_image_id_takes_the_instance_image :
  forall (provider : Provider) (self : OCICloud) (log : list Request)
         (inst details image : PyVal),
    provider log (get_instance_request self) = Returns inst ->
    attribute inst "source_details" = Some details ->
    attribute details "image_id" = Some image ->
    _set_image_id provider (self, log) =
      (Ok tt,
       (set_image_id image self, (log ++ [get_instance_request self])%list)).
Proof.
  intros provider self log inst details image Hp Hd Hi. unfold _set_image_id.
  rewrite (bind_ok _ _ _ _ _ (_get_instance_returns _ _ _ _ Hp)).
  rewrite (bind_ok _ _ _ _ _ (getattr_some _ _ _ _ Hd)).
  rewrite (bind_ok _ _ _ _ _ (getattr_some _ _ _ _ Hi)).
  reflexivity.
Qed.

Lemma set_image_id_takes_the_instance_image_witness :
  _set_image_id cloud_ok (sample_self VNone, []) =
    (Ok tt,
     (set_image_id (VStr "ocid1.image.running") (sample_self VNone),
      [get_instance_request (sample_self VNone)])).
Proof.
  apply (set_image_id_takes_the_instance_image cloud_ok (sample_self VNone) []
           (sample_instance "RUNNING")
           (VModel "InstanceSourceViaImageDetails"
              [("image_id", VStr "ocid1.image.running")])
           (VStr "ocid1.image.running")); reflexivity.
Defined.

(** ** The constructor *)



(** ** Subnet creation and termination *)

(** X22.  Called with its arguments in the declared order (availability
    domain, network, name), [_create_subnet] requests the subnet
    '<name>-subnet' in the compartment of the network, with the CIDR block of
    the whole network, and when the provider shows the subnet AVAILABLE at
    the first fetch it returns the created subnet after these two
    requests. *)
Theorem create_subnet_spans_the_network :
  forall (provider : Provider) (polls : nat) (name : string)
         (domain vcn c v b subnet sid shown : PyVal) (o : OCICloud)
         (log : list Request),
    attribute vcn "compartment_id" = Some c ->
    attribute vcn "id" = Some v ->
    attribute vcn "cidr_block" = Some b ->
    provider log (create_subnet_request name c domain v b) = Returns subnet ->
    attribute subnet "id" = Some sid ->
    provider (log ++ [create_subnet_request name c domain v b])%list
      (Req get_subnet [sid] []) = Returns shown ->
    attribute shown "lifecycle_state" = Some (VStr "AVAILABLE") ->
    _create_subnet provider polls domain vcn (VStr name) (o, log) =
      (Ok subnet,
       (o, (log ++ [create_subnet_request name c domain v b;
                    Req get_subnet [sid] []])%list)).
Proof.
  intros provider polls name domain vcn c v b subnet sid shown o log
    Hc Hv Hb Hcreate Hsid Hshown Havail.
  unfold _create_subnet.
  rewrite (bind_ok _ _ _ _ _ (getattr_some _ _ _ _ Hc)).
  change (py_add_str (VStr name) "-subnet")
    with (@ret string (name ++ "-subnet")).
  rewrite bind_ret.
  rewrite (bind_ok _ _ _ _ _ (getattr_some _ _ _ _ Hv)).
  rewrite (bind_ok _ _ _ _ _ (getattr_some _ _ _ _ Hb)).
  fold (create_subnet_request name c domain v b).
  rewrite (bind_ok _ _ _ _ _ (api_returns _ _ _ o _ Hcreate)).
  rewrite (bind_ok _ _ _ subnet _) by reflexivity.
  rewrite (bind_ok _ _ _ _ _ (getattr_some _ _ _ _ Hsid)).
  rewrite (bind_ok _ _ _ _ _ (api_returns _ _ _ o _ Hshown)).
  rewrite (bind_ok _ _ _ _ _
             (wait_until_ready provider polls _ _ _ _ false _ Havail)).
  rewrite <- app_assoc. reflexivity.
Qed.

Lemma create_subnet_spans_the_network_witness :
  _create_subnet cloud_ok 5 (VStr "Uocm:PHX-AD-1") sample_vcn
    (VStr "oci-ipa-test-x1") (sample_self VNone, []) =
    (Ok sample_subnet,
     (sample_self VNone,
      ([] ++ [create_subnet_request "oci-ipa-test-x1"
                (VStr "ocid1.compartment.c") (VStr "Uocm:PHX-AD-1")
                (VStr "ocid1.vcn.a") (VStr "10.0.0.0/29");
              Req get_subnet [VStr "ocid1.subnet.a"] []])%list)).
Proof.
  apply (create_subnet_spans_the_network cloud_ok 5 "oci-ipa-test-x1"
           (VStr "Uocm:PHX-AD-1") sample_vcn (VStr "ocid1.compartment.c")
           (VStr "ocid1.vcn.a") (VStr "10.0.0.0/29") sample_subnet
           (VStr "ocid1.subnet.a") sample_subnet (sample_self VNone) []);
    reflexivity.
Defined.

Lemma wait_until_without_data provider polls response property state b st :
  attribute response "data" = None ->
  wait_until provider polls response property state b st =
    (Raise (AttributeError "data"), st).
Proof.
  intros H. unfold wait_until.
  destruct polls; simpl;
    rewrite (bind_raise _ _ _ _ _ (getattr_none _ _ st H)); reflexivity.
Qed.

(** X23.  For an instance the provider looks up as a model (an object with
    a display name and no [data] of its own), [_terminate_instance] issues
    the terminate request and then raises an [AttributeError] in the wait
    that is handed the model: the instance is terminated, its attachments
    are never listed and nothing of the network is removed. *)
Theorem terminate_stops_after_the_request :
  forall (provider : Provider) (polls : nat) (self : OCICloud)
         (log : list Request) (inst name v : PyVal),
    provider log (get_instance_request self) = Returns inst ->
    attribute inst "display_name" = Some name ->
    attribute inst "data" = None ->
    provider (log ++ [get_instance_request self])%list
      (Req terminate_instance [running_instance_id self] []) = Returns v ->
    exists attr,
      _terminate_instance provider polls (self, log) =
        (Raise (AttributeError attr),
         (self, (log ++ [get_instance_request self;
                         Req terminate_instance [running_instance_id self] []])%list)).
Proof.
  intros provider polls self log inst name v Hinst Hname Hdata Hterm.
  exists "data". unfold _terminate_instance.
  rewrite (bind_ok _ _ _ _ _ (_get_instance_returns _ _ _ _ Hinst)).
  rewrite (bind_ok _ _ _ _ _ (getattr_some _ _ _ _ Hname)).
  rewrite bind_get_self.
  rewrite (bind_ok _ _ _ _ _ (api_returns _ _ _ self _ Hterm)).
  rewrite (bind_raise _ _ _ _ _
             (wait_until_without_data provider polls inst _ _ true _ Hdata)).
  rewrite <- app_assoc. reflexivity.
Qed.

Lemma terminate_stops_after_the_request_witness :
  exists attr,
    _terminate_instance cloud_ok 5 (sample_self VNone, []) =
      (Raise (AttributeError attr),
       (sample_self VNone,
        ([] ++ [get_instance_request (sample_self VNone);
                Req terminate_instance [VStr "ocid1.instance.i"] []])%list)).
Proof.
  apply (terminate_stops_after_the_request cloud_ok 5 (sample_self VNone) []
           (sample_instance "RUNNING") (VStr "oci-ipa-test-x1") VNone);
    reflexivity.
Defined.
